(** * Almere commuting assistant: crowding simulation and recommendation rules

    A shallow embedding of [src/agent_simulation.py], of
    [get_commuter_profile] and [generate_recommendations] from
    [src/recommendation_engine.py], of [src/chatbot_logic.py] and of the
    script [app.py].

    The Python code is written once, over an interface [PyNum] holding the
    arithmetic and the comparisons it performs on numbers.  The interface has
    two instances:
    - [Exact]: numbers are rationals ([Q]), arithmetic is exact;
    - [Binary64]: numbers are IEEE 754 binary64 values (primitive floats),
      which is what CPython computes with.

    [Binary64] converts an integer exactly when it is below 2^53 in
    absolute value, which is where Python's int-to-float conversion and its
    true division of ints agree with it; it is used on such inputs only.

    Integers that the program only counts with (rider counts, capacity, the
    number of steps, the switch counter) are [Z].  A division raises
    [ZeroDivisionError] on a zero divisor, so the functions that divide live
    in the [result] monad.  [print] is modelled as a log of output events and
    [random.uniform] as a draw from an explicit stream.

    The program runs in binary64.  A statement that a comparison of
    computed numbers decides (the verdict of [decide_on_pt], the crowding
    message chosen from an average) is made in every arithmetic, with the
    operations and comparisons of that arithmetic, so that it holds of the
    rounded computation.  The statements made over [Exact] are order and
    bound properties, which rounding preserves, and scenarios whose outcome
    is evaluated in binary64 beside them.

    The commuter table is the list of its rows.  The language service behind
    the chatbot is outside the program: each call is given the function that
    answers it, with a text or with an exception.  The script is read as
    Streamlit runs it: one pass per interaction over the session state it
    keeps, the widgets giving the selected id and the typed prompt. *)

From Stdlib Require Import ZArith QArith Qminmax Lqa Lia Bool String List.
From Stdlib Require Import Floats.PrimFloat Numbers.Cyclic.Int63.Uint63.
From Stdlib Require Import Sorting.Sorted DecimalString.
From stdpp Require Import base option list gmap strings.

Local Open Scope string_scope.
Local Open Scope list_scope.
Local Open Scope Z_scope.

(** ** Python runtime: exceptions, numbers, builtins *)

Module Py.

Inductive exn : Set := ZeroDivisionError.

Inductive result (A : Type) : Type :=
| Ok (a : A)
| Raise (e : exn).
Arguments Ok {A} a.
Arguments Raise {A} e.

#[export] Instance result_ret : MRet result := fun A a => Ok a.
#[export] Instance result_bind : MBind result := fun A B k m =>
  match m with
  | Ok a => k a
  | Raise e => Raise e
  end.

(** The operations of a Python number that the program uses.  [of_Z] is an
    [int] value used in arithmetic with floats, [of_Q] a decimal float
    literal such as [0.7]; [ltb x y] is [x < y] and [leb x y] is [x <= y]
    ([x > y] is [ltb y x], [x >= y] is [leb y x]). *)
Class PyNum (num : Type) := {
  of_Z : Z -> num;
  of_Q : Q -> num;
  add : num -> num -> num;
  sub : num -> num -> num;
  mul : num -> num -> num;
  div : num -> num -> num;
  ltb : num -> num -> bool;
  leb : num -> num -> bool
}.

Section Builtins.
Context {num : Type} `{PyNum num}.

(** [max(a, b)]: the first argument unless the second is greater. *)
Definition max (a b : num) : num := if ltb a b then b else a.

(** [min(a, b)]: the first argument unless the second is smaller. *)
Definition min (a b : num) : num := if ltb b a then b else a.

(** [sum(l)]: starts from the integer 0 and adds from the left. *)
Definition sum (l : list num) : num := fold_left add l (of_Z 0).

(** [a / b] for two ints: true division. *)
Definition truediv (a b : Z) : result num :=
  if b =? 0 then Raise ZeroDivisionError else Ok (div (of_Z a) (of_Z b)).

(** [x / n] for a number and an int. *)
Definition div_int (x : num) (n : Z) : result num :=
  if n =? 0 then Raise ZeroDivisionError else Ok (div x (of_Z n)).
End Builtins.

(** [range(n)] *)
Definition range (n : Z) : list Z := map Z.of_nat (seq 0 (Z.to_nat n)).

(** The state of the [random] module: the values that the coming calls of
    [random.random()] return, in order. *)
Definition random_state (num : Type) : Type := nat -> num.

Section Random.
Context {num : Type} `{PyNum num}.

Definition random_random (s : random_state num) : num * random_state num :=
  (s O, fun k => s (S k)).

(** [random.uniform(a, b)] is [a + (b - a) * random()]. *)
Definition random_uniform (a b : num) (s : random_state num)
  : num * random_state num :=
  let (u, s') := random_random s in (add a (mul (sub b a) u), s').
End Random.

End Py.
Import Py.

(** ** The two arithmetics *)

Definition Qltb (x y : Q) : bool :=
  match (x ?= y)%Q with Lt => true | _ => false end.

#[export] Instance Exact : PyNum Q := {|
  of_Z := inject_Z;
  of_Q := fun q => q;
  add := Qplus;
  sub := Qminus;
  mul := Qmult;
  div := Qdiv;
  ltb := Qltb;
  leb := Qle_bool
|}.

Definition float_of_Z (z : Z) : float :=
  if z <? 0 then PrimFloat.opp (PrimFloat.of_uint63 (Uint63.of_Z (- z)))
  else PrimFloat.of_uint63 (Uint63.of_Z z).

(** A decimal literal [n/d] is read as the double nearest to it, which is
    what dividing the two integers gives. *)
Definition float_of_Q (q : Q) : float :=
  PrimFloat.div (float_of_Z (Qnum q)) (float_of_Z (Zpos (Qden q))).

#[export] Instance Binary64 : PyNum float := {|
  of_Z := float_of_Z;
  of_Q := float_of_Q;
  add := PrimFloat.add;
  sub := PrimFloat.sub;
  mul := PrimFloat.mul;
  div := PrimFloat.div;
  ltb := PrimFloat.ltb;
  leb := PrimFloat.leb
|}.

(** ** src/agent_simulation.py *)

Definition PT : string := "Public Transport".

(** One row of the commuter table (and, as a dict, a user profile).  The
    source reads these fields with [row['...']], which needs them present: a
    record is a profile with a complete set of scores. *)
Record CommuterRecord (num : Type) : Type := {
  CommuterID : Z;
  UsualCommuteMode : string;
  Attitude_Car_Score : num;
  Attitude_PT_Score : num;
  Attitude_WalkCycle_Score : num;
  SN_Car_Score : num;
  SN_PT_Score : num;
  SN_WalkCycle_Score : num;
  PBC_Car_Score : num;
  PBC_PT_Score : num;
  PBC_WalkCycle_Score : num;
  Intention_Car_Score : num;
  Intention_PT_Score : num;
  Intention_WalkCycle_Score : num
}.
Arguments CommuterID {num} _.
Arguments UsualCommuteMode {num} _.
Arguments Attitude_Car_Score {num} _.
Arguments Attitude_PT_Score {num} _.
Arguments Attitude_WalkCycle_Score {num} _.
Arguments SN_Car_Score {num} _.
Arguments SN_PT_Score {num} _.
Arguments SN_WalkCycle_Score {num} _.
Arguments PBC_Car_Score {num} _.
Arguments PBC_PT_Score {num} _.
Arguments PBC_WalkCycle_Score {num} _.
Arguments Intention_Car_Score {num} _.
Arguments Intention_PT_Score {num} _.
Arguments Intention_WalkCycle_Score {num} _.

Record CommuterAgent (num : Type) : Type := {
  id : Z;
  usual_mode : string;
  current_mode : string;
  attitude_pt : num;
  pbc_pt : num;
  crowding_tolerance : num
}.
Arguments id {num} _.
Arguments usual_mode {num} _.
Arguments current_mode {num} _.
Arguments attitude_pt {num} _.
Arguments pbc_pt {num} _.
Arguments crowding_tolerance {num} _.

Record PublicTransportLine : Type := {
  name : string;
  capacity : Z;
  current_riders : Z
}.

(** What the simulation prints; the numbers are kept unformatted. *)
Inductive output (num : Type) : Type :=
| Banner (pt_capacity : Z)
| StepInitial (step initial_pt_attempt_count : Z) (perceived_crowding : num)
| StepFinal (step riders_after_response : Z) (final_crowding : num)
| SummaryCrowding (avg_crowding : num)
| SummarySwitches (mode_switches_total : Z).
Arguments Banner {num} _.
Arguments StepInitial {num} _ _ _.
Arguments StepFinal {num} _ _ _.
Arguments SummaryCrowding {num} _.
Arguments SummarySwitches {num} _.

(** The local variables of [run_crowding_simulation] that its loop updates,
    and the output printed so far. *)
Record sim_state (num : Type) : Type := {
  pt_line : PublicTransportLine;
  mode_switches_total : Z;
  crowding_levels_over_time : list num;
  pt_users : list (CommuterAgent num);
  stdout : list (output num)
}.
Arguments pt_line {num} _.
Arguments mode_switches_total {num} _.
Arguments crowding_levels_over_time {num} _.
Arguments pt_users {num} _.
Arguments stdout {num} _.

(** What a call of [run_crowding_simulation] leaves behind: the returned
    dict and the printed output. *)
Record sim_outcome (num : Type) : Type := {
  insights : gmap string num;
  printed : list (output num)
}.
Arguments insights {num} _.
Arguments printed {num} _.

Section AgentSimulation.
Context {num : Type} `{PyNum num}.

(** [CommuterAgent.__init__] *)
Definition CommuterAgent_init (id : Z) (usual_mode : string)
    (attitude_pt pbc_pt : num) (crowding_tolerance : option num)
    (s : random_state num) : CommuterAgent num * random_state num :=
  let (tolerance, s') :=
    match crowding_tolerance with
    | Some t => (t, s)
    | None => random_uniform (of_Q (5 # 10)) (of_Q (9 # 10)) s
    end in
  ({| id := id; usual_mode := usual_mode; current_mode := usual_mode;
      attitude_pt := attitude_pt; pbc_pt := pbc_pt;
      crowding_tolerance := tolerance |}, s').

Definition crowding_impact (self : CommuterAgent num)
    (perceived_crowding_level : num) : num :=
  mul (max (of_Z 0) (sub perceived_crowding_level (crowding_tolerance self)))
      (of_Z 2).

Definition adjusted_pbc_pt (self : CommuterAgent num)
    (perceived_crowding_level : num) : num :=
  max (of_Z 1)
      (sub (pbc_pt self)
           (mul (crowding_impact self perceived_crowding_level) (of_Z 3))).

Definition adjusted_attitude_pt (self : CommuterAgent num)
    (perceived_crowding_level : num) : num :=
  max (of_Z 1)
      (sub (attitude_pt self)
           (mul (crowding_impact self perceived_crowding_level) (of_Z 2))).

(** [CommuterAgent.decide_on_pt]: the verdict, and the agent as the call
    leaves it. *)
Definition decide_on_pt (self : CommuterAgent num)
    (perceived_crowding_level : num) : bool * CommuterAgent num :=
  if negb (String.eqb (usual_mode self) PT) then (false, self)
  else
    if ltb (adjusted_pbc_pt self perceived_crowding_level) (of_Z 3)
       || ltb (adjusted_attitude_pt self perceived_crowding_level) (of_Z 3)
    then (false, self)
    else (true, self).

(** [PublicTransportLine.__init__] *)
Definition PublicTransportLine_init (name : string) (capacity : Z)
  : PublicTransportLine :=
  {| name := name; capacity := capacity; current_riders := 0 |}.

Definition get_crowding_level (self : PublicTransportLine) : result num :=
  if capacity self =? 0 then Ok (of_Q 0)
  else
    ratio ← truediv (current_riders self) (capacity self);
    Ok (min (of_Q 1) ratio).

Definition set_riders (self : PublicTransportLine) (n : Z)
  : PublicTransportLine :=
  {| name := name self; capacity := capacity self; current_riders := n |}.

Definition add_rider (self : PublicTransportLine) : PublicTransportLine :=
  set_riders self (current_riders self + 1).

Definition remove_rider (self : PublicTransportLine) : PublicTransportLine :=
  set_riders self (if 0 <? current_riders self - 1
                   then current_riders self - 1 else 0).

Definition reset_riders (self : PublicTransportLine) : PublicTransportLine :=
  set_riders self 0.

(** The first loop of [run_crowding_simulation]: one agent per row, each
    drawing its tolerance. *)
Fixpoint make_agents (rows : list (CommuterRecord num))
    (s : random_state num) : list (CommuterAgent num) * random_state num :=
  match rows with
  | [] => ([], s)
  | row :: rows' =>
      let (agent, s1) :=
        CommuterAgent_init (CommuterID row) (UsualCommuteMode row)
                           (Attitude_PT_Score row) (PBC_PT_Score row)
                           None s in
      let (agents, s2) := make_agents rows' s1 in
      (agent :: agents, s2)
  end.

Definition mark_switched (agent : CommuterAgent num) : CommuterAgent num :=
  {| id := id agent; usual_mode := usual_mode agent;
     current_mode := "Alternative";
     attitude_pt := attitude_pt agent; pbc_pt := pbc_pt agent;
     crowding_tolerance := crowding_tolerance agent |}.

(** The inner loop [for agent in pt_users]: the riders that stay, the
    switch counter, and the agents as the loop leaves them. *)
Fixpoint respond (perceived_crowding : num) (agents : list (CommuterAgent num))
    (current_pt_riders_after_response mode_switches_total : Z)
  : Z * Z * list (CommuterAgent num) :=
  match agents with
  | [] => (current_pt_riders_after_response, mode_switches_total, [])
  | agent :: rest =>
      let (stays, agent1) := decide_on_pt agent perceived_crowding in
      if stays then
        let '(r, m, rest') :=
          respond perceived_crowding rest
                  (current_pt_riders_after_response + 1)
                  mode_switches_total in
        (r, m, agent1 :: rest')
      else
        let '(r, m, rest') :=
          respond perceived_crowding rest
                  current_pt_riders_after_response
                  (mode_switches_total + 1) in
        (r, m, mark_switched agent1 :: rest')
  end.

(** One pass of the body of [for step in range(num_sim_steps)]. *)
Definition sim_step (st : sim_state num) (step : Z) : result (sim_state num) :=
  let line := reset_riders (pt_line st) in
  let initial_pt_attempt_count := Z.of_nat (length (pt_users st)) in
  let line := set_riders line initial_pt_attempt_count in
  perceived_crowding ← get_crowding_level line;
  let levels := crowding_levels_over_time st ++ [perceived_crowding] in
  let out := stdout st
             ++ [StepInitial (step + 1) initial_pt_attempt_count
                             perceived_crowding] in
  let '(after, switches, users) :=
    respond perceived_crowding (pt_users st) 0 (mode_switches_total st) in
  let line := set_riders line after in
  final_crowding_this_step ← get_crowding_level line;
  Ok {| pt_line := line;
        mode_switches_total := switches;
        crowding_levels_over_time := levels;
        pt_users := users;
        stdout := out ++ [StepFinal (step + 1) after
                                    final_crowding_this_step] |}.

Fixpoint sim_loop (st : sim_state num) (steps : list Z)
  : result (sim_state num) :=
  match steps with
  | [] => Ok st
  | step :: steps' => st' ← sim_step st step; sim_loop st' steps'
  end.

(** [sum(l) / len(l) if l else 0] *)
Definition average (l : list num) : result num :=
  match l with
  | [] => Ok (of_Z 0)
  | _ :: _ => div_int (sum l) (Z.of_nat (length l))
  end.

Definition is_pt_user (agent : CommuterAgent num) : bool :=
  String.eqb (usual_mode agent) PT.

(** Lines 83-103: the agents, the line, the counters, the riders. *)
Definition sim_init (commuters_df : list (CommuterRecord num))
    (pt_capacity : Z) (s : random_state num) : sim_state num :=
  let agents := fst (make_agents commuters_df s) in
  let line := PublicTransportLine_init "Main PT Line" pt_capacity in
  {| pt_line := line;
     mode_switches_total := 0;
     crowding_levels_over_time := [];
     pt_users := List.filter is_pt_user agents;
     stdout := [Banner pt_capacity] |}.

Definition run_crowding_simulation (commuters_df : list (CommuterRecord num))
    (pt_capacity num_sim_steps : Z) (s : random_state num)
  : result (sim_outcome num) :=
  st ← sim_loop (sim_init commuters_df pt_capacity s) (range num_sim_steps);
  avg_crowding ← average (crowding_levels_over_time st);
  Ok {| insights :=
          <["average_pt_crowding" := avg_crowding]>
          (<["total_mode_switches_from_pt" := of_Z (mode_switches_total st)]>
          (<["simulated_pt_capacity" := of_Z pt_capacity]>
          (<["num_sim_steps" := of_Z num_sim_steps]> ∅)));
        printed := stdout st ++ [SummaryCrowding avg_crowding;
                                 SummarySwitches (mode_switches_total st)] |}.
End AgentSimulation.

(** ** src/recommendation_engine.py *)

(** The messages [generate_recommendations] can append, one constructor per
    string of the source.  The three crowding messages and the switch message
    are f-strings; they carry the number they format. *)
Inductive recommendation (num : Type) : Type :=
| PT_negative_attitude      (* "It seems you have a negative attitude ..." *)
| PT_low_subjective_norm    (* "Your social circle might not strongly ..." *)
| PT_low_control            (* "You seem to perceive challenges with ..." *)
| PT_strong_intention       (* "You have a strong intention to use ..." *)
| Car_strong_preference     (* "You seem to strongly prefer using a car ..." *)
| Car_low_subjective_norm   (* "While you might prefer driving, ..." *)
| WalkCycle_challenges      (* "You intend to walk or cycle, but ..." *)
| WalkCycle_encouraged      (* "Great! You have a high intention ..." *)
| Crowding_alert (avg_crowding : num)     (* "**Crowding Alert:** ..." *)
| Crowding_moderate (avg_crowding : num)  (* "... moderate public transport crowding ..." *)
| Crowding_low (avg_crowding : num)       (* "... generally not overly crowded ..." *)
| Switches_observed (total_switches : num) (* "Our simulation also observed ..." *)
| Balanced_view.            (* "Based on your profile, you seem to have a balanced view ..." *)
Arguments PT_negative_attitude {num}.
Arguments PT_low_subjective_norm {num}.
Arguments PT_low_control {num}.
Arguments PT_strong_intention {num}.
Arguments Car_strong_preference {num}.
Arguments Car_low_subjective_norm {num}.
Arguments WalkCycle_challenges {num}.
Arguments WalkCycle_encouraged {num}.
Arguments Crowding_alert {num} _.
Arguments Crowding_moderate {num} _.
Arguments Crowding_low {num} _.
Arguments Switches_observed {num} _.
Arguments Balanced_view {num}.

(** The literal text each message starts with. *)
Definition opening {num : Type} (r : recommendation num) : string :=
  match r with
  | PT_negative_attitude => "It seems you have a negative attitude towards public transport. "
  | PT_low_subjective_norm => "Your social circle might not strongly influence you to use public transport. "
  | PT_low_control => "You seem to perceive challenges with using public transport. "
  | PT_strong_intention => "You have a strong intention to use public transport, which is great! "
  | Car_strong_preference => "You seem to strongly prefer using a car due to high perceived control and positive attitude. "
  | Car_low_subjective_norm => "While you might prefer driving, consider the environmental or community impact. "
  | WalkCycle_challenges => "You intend to walk or cycle, but might face challenges. "
  | WalkCycle_encouraged => "Great! You have a high intention and perceived control for walking or cycling. "
  | Crowding_alert _ => "**Crowding Alert:** Our simulation indicates public transport can be quite crowded (average crowding: "
  | Crowding_moderate _ => "Our simulation shows moderate public transport crowding (average crowding: "
  | Crowding_low _ => "Our simulation suggests public transport is generally not overly crowded (average crowding: "
  | Switches_observed _ => "Our simulation also observed "
  | Balanced_view => "Based on your profile, you seem to have a balanced view on commuting. "
  end.

Section RecommendationEngine.
Context {num : Type} `{PyNum num}.

(** [recommendations.append(r) if c] *)
Definition append_if (c : bool) (r : recommendation num)
    (recommendations : list (recommendation num)) :=
  if c then recommendations ++ [r] else recommendations.

(** Lines 27-53: the Public Transport rules. *)
Definition pt_rules (user_profile : CommuterRecord num)
    (recommendations : list (recommendation num)) :=
  if ltb (Intention_PT_Score user_profile) (of_Z 4) then
    let recommendations :=
      append_if (ltb (Attitude_PT_Score user_profile) (of_Z 4))
                PT_negative_attitude recommendations in
    let recommendations :=
      append_if (ltb (SN_PT_Score user_profile) (of_Z 4))
                PT_low_subjective_norm recommendations in
    append_if (ltb (PBC_PT_Score user_profile) (of_Z 4))
              PT_low_control recommendations
  else if leb (of_Z 5) (Intention_PT_Score user_profile) then
    recommendations ++ [PT_strong_intention]
  else recommendations.

(** Lines 55-66: the Car rules. *)
Definition car_rules (user_profile : CommuterRecord num)
    (recommendations : list (recommendation num)) :=
  if leb (of_Z 5) (Intention_Car_Score user_profile) then
    let recommendations :=
      append_if (leb (of_Z 5) (Attitude_Car_Score user_profile)
                 && leb (of_Z 5) (PBC_Car_Score user_profile))
                Car_strong_preference recommendations in
    append_if (ltb (SN_Car_Score user_profile) (of_Z 4))
              Car_low_subjective_norm recommendations
  else recommendations.

(** Lines 69-81: the Walk/Cycle rules. *)
Definition walkcycle_rules (user_profile : CommuterRecord num)
    (recommendations : list (recommendation num)) :=
  if leb (of_Z 5) (Intention_WalkCycle_Score user_profile) then
    if ltb (PBC_WalkCycle_Score user_profile) (of_Z 4)
    then recommendations ++ [WalkCycle_challenges]
    else recommendations ++ [WalkCycle_encouraged]
  else recommendations.

(** [crowding_insights.get(key, 0)] *)
Definition get0 (crowding_insights : gmap string num) (key : string) : num :=
  default (of_Z 0) (crowding_insights !! key).

(** [if crowding_insights:] holds for a dict with at least one entry;
    [None] and the empty dict are both false. *)
Definition truthy (d : gmap string num) : bool := negb (bool_decide (d = ∅)).

(** Lines 84-109: the crowding rules. *)
Definition crowding_rules (user_profile : CommuterRecord num)
    (crowding_insights : option (gmap string num))
    (recommendations : list (recommendation num)) :=
  match crowding_insights with
  | Some d =>
      if truthy d then
        let avg_crowding := get0 d "average_pt_crowding" in
        let total_switches := get0 d "total_mode_switches_from_pt" in
        let recommendations :=
          if ltb (of_Q (7 # 10)) avg_crowding then
            recommendations ++ [Crowding_alert avg_crowding]
          else if ltb (of_Q (4 # 10)) avg_crowding then
            recommendations ++ [Crowding_moderate avg_crowding]
          else
            recommendations ++ [Crowding_low avg_crowding] in
        append_if (ltb (of_Z 0) total_switches
                   && String.eqb (UsualCommuteMode user_profile) PT)
                  (Switches_observed total_switches) recommendations
      else recommendations
  | None => recommendations
  end.

(** Lines 23-109: everything before the fallback. *)
Definition rule_recommendations (user_profile : CommuterRecord num)
    (crowding_insights : option (gmap string num))
  : list (recommendation num) :=
  let recommendations := [] in
  let recommendations := pt_rules user_profile recommendations in
  let recommendations := car_rules user_profile recommendations in
  let recommendations := walkcycle_rules user_profile recommendations in
  crowding_rules user_profile crowding_insights recommendations.

Definition generate_recommendations (user_profile : CommuterRecord num)
    (crowding_insights : option (gmap string num))
  : list (recommendation num) :=
  let recommendations := rule_recommendations user_profile crowding_insights in
  match recommendations with
  | [] => recommendations ++ [Balanced_view]
  | _ :: _ => recommendations
  end.

(** The messages of the crowding threshold rule, and the switch message. *)
Definition is_crowding_level (r : recommendation num) : bool :=
  match r with
  | Crowding_alert _ | Crowding_moderate _ | Crowding_low _ => true
  | _ => false
  end.

Definition is_switch_message (r : recommendation num) : bool :=
  match r with
  | Switches_observed _ => true
  | _ => false
  end.
End RecommendationEngine.

(** ** Vocabulary of the statements *)

Section Vocabulary.
Context {num : Type} `{PyNum num}.

(** The value [get_crowding_level] returns on a line of capacity [c]
    carrying [r] riders. *)
Definition crowding_of (c r : Z) : num :=
  if c =? 0 then of_Q 0 else min (of_Q 1) (div (of_Z r) (of_Z c)).

(** The number of rows whose usual mode is Public Transport. *)
Definition pt_count (rows : list (CommuterRecord num)) : Z :=
  Z.of_nat (length (List.filter (fun row => String.eqb (UsualCommuteMode row) PT) rows)).

(** The crowding values printed after boarding, before the agents respond
    (step 3 of a cycle), in order. *)
Fixpoint initial_crowdings (out : list (output num)) : list num :=
  match out with
  | [] => []
  | StepInitial _ _ c :: out' => c :: initial_crowdings out'
  | _ :: out' => initial_crowdings out'
  end.

(** The crowding values printed after the agents responded (step 5). *)
Fixpoint final_crowdings (out : list (output num)) : list num :=
  match out with
  | [] => []
  | StepFinal _ _ c :: out' => c :: final_crowdings out'
  | _ :: out' => final_crowdings out'
  end.

(** The agents the simulation builds from the table, and those of them
    that usually ride. *)
Definition agents_of (rows : list (CommuterRecord num))
    (s : random_state num) : list (CommuterAgent num) :=
  fst (make_agents rows s).

Definition pt_users_of (rows : list (CommuterRecord num))
    (s : random_state num) : list (CommuterAgent num) :=
  List.filter is_pt_user (agents_of rows s).

(** How many of [agents] answer "switch" at crowding [x]. *)
Definition switchers (x : num) (agents : list (CommuterAgent num)) : nat :=
  length (List.filter (fun a => negb (fst (decide_on_pt a x))) agents).

(** A profile with every score at [v]. *)
Definition flat_profile (i : Z) (mode : string) (v : num)
  : CommuterRecord num :=
  {| CommuterID := i; UsualCommuteMode := mode;
     Attitude_Car_Score := v; Attitude_PT_Score := v;
     Attitude_WalkCycle_Score := v;
     SN_Car_Score := v; SN_PT_Score := v; SN_WalkCycle_Score := v;
     PBC_Car_Score := v; PBC_PT_Score := v; PBC_WalkCycle_Score := v;
     Intention_Car_Score := v; Intention_PT_Score := v;
     Intention_WalkCycle_Score := v |}.

(** A table row that matters to the simulation: id, usual mode, and the
    two Public Transport scores; the other scores are set to 4. *)
Definition commuter (i : Z) (mode : string) (attitude pbc : Z)
  : CommuterRecord num :=
  {| CommuterID := i; UsualCommuteMode := mode;
     Attitude_Car_Score := of_Z 4; Attitude_PT_Score := of_Z attitude;
     Attitude_WalkCycle_Score := of_Z 4;
     SN_Car_Score := of_Z 4; SN_PT_Score := of_Z 4;
     SN_WalkCycle_Score := of_Z 4;
     PBC_Car_Score := of_Z 4; PBC_PT_Score := of_Z pbc;
     PBC_WalkCycle_Score := of_Z 4;
     Intention_Car_Score := of_Z 4; Intention_PT_Score := of_Z 4;
     Intention_WalkCycle_Score := of_Z 4 |}.

(** Five commuters, three of them usual riders with a PBC score of 5. *)
Definition five_commuters : list (CommuterRecord num) :=
  [commuter 1 PT 5 5; commuter 2 "Car" 3 3; commuter 3 PT 6 5;
   commuter 4 PT 4 5; commuter 5 "Walk/Cycle" 2 3].

(** Two commuters, none of them a usual rider. *)
Definition no_riders : list (CommuterRecord num) :=
  [commuter 2 "Car" 3 3; commuter 5 "Walk/Cycle" 2 3].

(** A single usual rider. *)
Definition one_rider : list (CommuterRecord num) := [commuter 1 PT 5 5].
End Vocabulary.

(** A random source whose every draw is 1/4, so that every sampled
    tolerance is 0.5 + 0.4 * 0.25 = 0.6. *)
Definition quarter_Q : random_state Q := fun _ => (1 # 4)%Q.
Definition quarter_float : random_state float := fun _ => float_of_Q (1 # 4).

(** ** Vocabulary of the recommendation statements *)

(** The fallback message. *)
Definition is_fallback {num : Type} (r : recommendation num) : bool :=
  match r with
  | Balanced_view => true
  | _ => false
  end.

(** What the attitude, norm and control rules (lines 27-81) produce. *)
Definition tpb_rules {num : Type} `{PyNum num}
    (user_profile : CommuterRecord num) : list (recommendation num) :=
  walkcycle_rules user_profile
                  (car_rules user_profile (pt_rules user_profile [])).

(** The insights of the source's own example: average crowding 0.85 and
    15 switches. *)
Definition alert_insights : gmap string Q :=
  <["average_pt_crowding" := (85 # 100)%Q]>
  (<["total_mode_switches_from_pt" := 15%Q]> ∅).

(** A usual rider with a PBC score of 5 and a tolerance of 0.6, a car
    driver, and a line carrying more riders than it has room for. *)
Definition scenario_rider : CommuterAgent Q :=
  {| id := 1; usual_mode := PT; current_mode := PT;
     attitude_pt := 5%Q; pbc_pt := 5%Q; crowding_tolerance := (6 # 10)%Q |}.

Definition car_driver : CommuterAgent Q :=
  {| id := 2; usual_mode := "Car"; current_mode := "Car";
     attitude_pt := 3%Q; pbc_pt := 3%Q; crowding_tolerance := (6 # 10)%Q |}.

Definition crowded_line : PublicTransportLine :=
  {| name := "Main PT Line"; capacity := 3; current_riders := 5 |}.

(** The arithmetic mean of a list of rationals, 0 for the empty list. *)
Definition mean_Q (l : list Q) : Q :=
  match l with
  | [] => 0%Q
  | _ :: _ => (fold_right Qplus 0 l / inject_Z (Z.of_nat (length l)))%Q
  end.

(** ** Vocabulary of the further statements *)

(** Two usual riders: one with high scores, one with a low PBC score. *)
Definition sturdy_rider : CommuterAgent Q :=
  {| id := 3; usual_mode := PT; current_mode := PT;
     attitude_pt := 6%Q; pbc_pt := 6%Q; crowding_tolerance := (6 # 10)%Q |}.

Definition timid_rider : CommuterAgent Q :=
  {| id := 4; usual_mode := PT; current_mode := PT;
     attitude_pt := 6%Q; pbc_pt := 2%Q; crowding_tolerance := (9 # 10)%Q |}.

(** A random source is well formed when every draw lies in [0, 1), as the
    draws of [random.random()] do. *)
Definition unit_draws (s : random_state Q) : Prop :=
  forall k : nat, (0 <= s k)%Q /\ (s k < 1)%Q.

Section MoreVocabulary.
Context {num : Type} `{PyNum num}.

(** What one cycle prints on a line of capacity [c] with [p] usual riders
    of whom [k] answer "switch". *)
Definition cycle_log (c p k step : Z) : list (output num) :=
  [StepInitial (step + 1) p (crowding_of c p);
   StepFinal (step + 1) (p - k) (crowding_of c (p - k))].

(** An agent after a cycle at crowding [x]. *)
Definition settle (x : num) (a : CommuterAgent num) : CommuterAgent num :=
  if fst (decide_on_pt a x) then a else mark_switched a.
End MoreVocabulary.

(** A random source that differs from [quarter_Q] from its sixth draw on. *)
Definition quarter_then_half : random_state Q :=
  fun i => if (i <? 5)%nat then (1 # 4)%Q else (1 # 2)%Q.

(** A usual rider whose PBC or attitude score is below 3. *)
Definition low_score_rider (row : CommuterRecord Q) : bool :=
  String.eqb (UsualCommuteMode row) PT
  && (Qltb (PBC_PT_Score row) 3 || Qltb (Attitude_PT_Score row) 3).

(** The calls a client can make on a line, and a sequence of them. *)
Inductive line_op : Set := Add | Remove | Reset.

Definition apply_op (line : PublicTransportLine) (op : line_op)
  : PublicTransportLine :=
  match op with
  | Add => add_rider line
  | Remove => remove_rider line
  | Reset => reset_riders line
  end.

Definition apply_ops (ops : list line_op) (line : PublicTransportLine)
  : PublicTransportLine :=
  fold_left apply_op ops line.

Definition adds (ops : list line_op) : Z :=
  Z.of_nat (length (List.filter (fun op => match op with Add => true | _ => false end) ops)).

(** The place of a message in the fixed order of the rules. *)
Definition rank {num : Type} (r : recommendation num) : nat :=
  match r with
  | PT_negative_attitude => 0
  | PT_low_subjective_norm => 1
  | PT_low_control => 2
  | PT_strong_intention => 3
  | Car_strong_preference => 4
  | Car_low_subjective_norm => 5
  | WalkCycle_challenges => 6
  | WalkCycle_encouraged => 7
  | Crowding_alert _ => 8
  | Crowding_moderate _ => 8
  | Crowding_low _ => 8
  | Switches_observed _ => 9
  | Balanced_view => 10
  end.

Fixpoint strictly_increasing (l : list nat) : bool :=
  match l with
  | [] => true
  | x :: l' =>
      match l' with
      | [] => true
      | y :: _ => (x <? y)%nat && strictly_increasing l'
      end
  end.

(** A second profile and a second insights dict that the rules cannot tell
    from [flat_profile 102 PT 4] and [alert_insights]. *)
Definition other_profile : CommuterRecord Q :=
  {| CommuterID := 7; UsualCommuteMode := PT;
     Attitude_Car_Score := 4%Q; Attitude_PT_Score := 4%Q;
     Attitude_WalkCycle_Score := 1%Q;
     SN_Car_Score := 4%Q; SN_PT_Score := 4%Q; SN_WalkCycle_Score := 7%Q;
     PBC_Car_Score := 4%Q; PBC_PT_Score := 4%Q; PBC_WalkCycle_Score := 4%Q;
     Intention_Car_Score := 4%Q; Intention_PT_Score := 4%Q;
     Intention_WalkCycle_Score := 4%Q |}.

Definition full_insights : gmap string Q :=
  <["simulated_pt_capacity" := 10%Q]> (<["num_sim_steps" := 5%Q]> alert_insights).


(** ** src/recommendation_engine.py: the profile lookup *)

(** [IndexError], which [.iloc[0]] raises on an empty selection. *)
Inductive lookup_error : Set := IndexError.

(** [get_commuter_profile]: the first row of the table whose CommuterID is
    the one asked for. *)
Definition get_commuter_profile {num : Type} (commuter_id : Z)
    (df : list (CommuterRecord num)) : CommuterRecord num + lookup_error :=
  match List.filter (fun row => CommuterID row =? commuter_id) df with
  | [] => inr IndexError
  | profile :: _ => inl profile
  end.

(** ** src/chatbot_logic.py *)

Module ChatbotLogic.

(** An entry of the conversation history, and a message as the API takes
    it. *)
Record history_entry : Set := { role : string; content : string }.
Record api_message : Set := { api_role : string; parts : list string }.

(** What [generate_content] followed by [response.text] comes to: a text, or
    an exception, caught by [except Exception as e] and printed as [e]. *)
Inductive api_outcome : Set :=
| Reply (text : string)
| Failure (e : string).

(** The service is outside the program: a call is answered by a function
    from the request to its outcome, given with the call. *)
Definition service : Set := list api_message -> api_outcome.

Record Chatbot : Set := { conversation_history : list history_entry }.

(** [Chatbot.__init__] *)
Definition Chatbot_init : Chatbot := {| conversation_history := [] |}.

Definition nl : string := String (Ascii.ascii_of_nat 10) EmptyString.

Definition default_system_prompt : string :=
  "You are a helpful commuting assistant. Provide concise and relevant information.".

(** The loop over the history that builds the request. *)
Definition to_api (msg : history_entry) : list api_message :=
  if String.eqb (role msg) "user"
  then [{| api_role := "user"; parts := [content msg] |}]
  else if String.eqb (role msg) "assistant"
       then [{| api_role := "model"; parts := [content msg] |}]
       else [].

(** The request [get_chat_response] sends. *)
Definition request (self : Chatbot) (user_message system_prompt : string)
  : list api_message :=
  let full_user_message :=
    match conversation_history self with
    | [] => system_prompt ++ nl ++ nl ++ "User: " ++ user_message
    | _ :: _ => "User: " ++ user_message
    end%string in
  flat_map to_api (conversation_history self)
  ++ [{| api_role := "user"; parts := [full_user_message] |}].

(** [Chatbot.get_chat_response]: the text returned and the chatbot as the
    call leaves it. *)
Definition get_chat_response (generate_content : service) (self : Chatbot)
    (user_message system_prompt : string) : string * Chatbot :=
  match generate_content (request self user_message system_prompt) with
  | Reply chat_response =>
      (chat_response,
       {| conversation_history :=
            conversation_history self
            ++ [{| role := "user"; content := user_message |};
                {| role := "assistant"; content := chat_response |}] |})
  | Failure e => (("Gemini API Error: " ++ e)%string, self)
  end.

(** A conversation: each message comes with the service's behaviour at that
    call; the system prompt is the default one. *)
Definition converse (calls : list (string * service)) (self : Chatbot)
  : Chatbot :=
  fold_left (fun bot call =>
               snd (get_chat_response (snd call) bot (fst call)
                                      default_system_prompt))
            calls self.

(** The exchanges of a conversation that the service answered. *)
Fixpoint answered (calls : list (string * service)) (self : Chatbot)
  : list (string * string) :=
  match calls with
  | [] => []
  | (user_message, generate_content) :: calls' =>
      match generate_content (request self user_message
                                      default_system_prompt) with
      | Reply chat_response =>
          (user_message, chat_response)
          :: answered calls'
               (snd (get_chat_response generate_content self user_message
                                       default_system_prompt))
      | Failure _ => answered calls' self
      end
  end.

Definition exchange (ur : string * string) : list history_entry :=
  [{| role := "user"; content := fst ur |};
   {| role := "assistant"; content := snd ur |}].

End ChatbotLogic.

(** ** app.py *)

Module App.
Import ChatbotLogic.

Definition DEFAULT_PT_CAPACITY : Z := 10.
Definition NUM_SIM_STEPS : Z := 5.

(** [st.session_state]: the four entries the script keeps between reruns. *)
Record session_state (num : Type) : Type := {
  messages : list history_entry;
  commuter_profile : option (CommuterRecord num);
  crowding_insights : option (gmap string num);
  chatbot : Chatbot
}.
Arguments messages {num} _.
Arguments commuter_profile {num} _.
Arguments crowding_insights {num} _.
Arguments chatbot {num} _.

(** An exception that ends a rerun of the script. *)
Inductive app_exn : Set :=
| Lookup (e : lookup_error)
| Simulation (e : Py.exn).

(** [needle in hay] on strings. *)
Fixpoint contains (needle hay : string) : bool :=
  String.prefix needle hay
  || match hay with
     | EmptyString => false
     | String _ hay' => contains needle hay'
     end.

(** An [int] inside an f-string. *)
Definition str_int (z : Z) : string := NilZero.string_of_int (Z.to_int z).

Definition loaded_message (selected_commuter_id : Z) : history_entry :=
  {| role := "assistant";
     content := "Profile for Commuter ID " ++ str_int selected_commuter_id
                ++ " loaded. How can I help you with your commute today?" |}%string.

Definition cleared_message : history_entry :=
  {| role := "assistant";
     content := "Commuter profile cleared. Please select a profile to get personalized recommendations." |}.

Definition select_hint : string :=
  "Please select a commuter profile from the sidebar to get personalized recommendations.".

Definition recommendations_header : string :=
  "Here are some personalized recommendations based on your profile:".

Section Script.
Context {num : Type} `{PyNum num}.

(** [str.lower], and the text of a recommendation. *)
Variable lower : string -> string.
Variable render : recommendation num -> string.

(** Lines 17-26. *)
Definition initial : session_state num :=
  {| messages := []; commuter_profile := None; crowding_insights := None;
     chatbot := Chatbot_init |}.

(** Truth value of the selected id: [None] and [0] are false. *)
Definition id_truthy (selected_commuter_id : option Z) : bool :=
  match selected_commuter_id with
  | Some i => negb (i =? 0)
  | None => false
  end.

(** The condition of lines 57-58. *)
Definition load_condition (selected_commuter_id : option Z)
    (st : session_state num) : bool :=
  id_truthy selected_commuter_id
  && match commuter_profile st with None => true | Some _ => false end
  || id_truthy selected_commuter_id
     && match commuter_profile st, selected_commuter_id with
        | Some profile, Some i => negb (CommuterID profile =? i)
        | _, _ => false
        end.

(** The condition of line 64. *)
Definition clear_condition (selected_commuter_id : option Z)
    (st : session_state num) : bool :=
  match selected_commuter_id, commuter_profile st with
  | None, Some _ => true
  | _, _ => false
  end.

(** Lines 49-68: the profile selection of one rerun, on the session and the
    random source; the third component is the exception that ended the
    rerun, if one did.  The sidebar is display only. *)
Definition select_profile (commuter_df : list (CommuterRecord num))
    (selected_commuter_id : option Z)
    (w : session_state num * random_state num)
  : session_state num * random_state num * option app_exn :=
  let (st, s) := w in
  match commuter_df, selected_commuter_id with
  | [], _ => (st, s, None)
  | _ :: _, Some i =>
      if load_condition selected_commuter_id st then
        match get_commuter_profile i commuter_df with
        | inr e => (st, s, Some (Lookup e))
        | inl profile =>
            let st1 :=
              {| messages := messages st ++ [loaded_message i];
                 commuter_profile := Some profile;
                 crowding_insights := crowding_insights st;
                 chatbot := chatbot st |} in
            let s' := snd (make_agents commuter_df s) in
            match run_crowding_simulation commuter_df DEFAULT_PT_CAPACITY
                                          NUM_SIM_STEPS s with
            | Raise e => (st1, s', Some (Simulation e))
            | Ok out =>
                ({| messages := messages st1;
                    commuter_profile := commuter_profile st1;
                    crowding_insights := Some (insights out);
                    chatbot := chatbot st1 |}, s', None)
            end
        end
      else (st, s, None)
  | _ :: _, None =>
      if clear_condition selected_commuter_id st then
        ({| messages := messages st ++ [cleared_message];
            commuter_profile := None;
            crowding_insights := None;
            chatbot := chatbot st |}, s, None)
      else (st, s, None)
  end.

(** The test of line 109. *)
Definition asks_for_recommendations (prompt : string) : bool :=
  contains "recommend" (lower prompt)
  || contains "advice" (lower prompt)
  || contains "suggest" (lower prompt).

(** Lines 110-115. *)
Definition recommendations_reply (profile : CommuterRecord num)
    (crowding_insights : option (gmap string num)) : string :=
  (recommendations_header ++ nl ++ nl
   ++ String.concat nl
        (List.map (fun rec => "- " ++ render rec)
                  (generate_recommendations profile crowding_insights)))%string.

(** Lines 106-123: the reply to a prompt and the chatbot after it. *)
Definition reply_to (generate_content : service) (prompt : string)
    (st : session_state num) : string * Chatbot :=
  match commuter_profile st with
  | Some profile =>
      if asks_for_recommendations prompt
      then (recommendations_reply profile (crowding_insights st), chatbot st)
      else get_chat_response generate_content (chatbot st) prompt
                             default_system_prompt
  | None =>
      if negb (contains "profile" (lower prompt))
      then get_chat_response generate_content (chatbot st) prompt
                             default_system_prompt
      else (select_hint, chatbot st)
  end.

(** Lines 97-127: the chat input of one rerun; [None] when nothing was
    submitted. *)
Definition handle_prompt (generate_content : service)
    (prompt : option string) (st : session_state num) : session_state num :=
  match prompt with
  | None | Some EmptyString => st
  | Some prompt =>
      let (response_content, bot) := reply_to generate_content prompt st in
      {| messages := messages st
                     ++ [{| role := "user"; content := prompt |}]
                     ++ [{| role := "assistant"; content := response_content |}];
         commuter_profile := commuter_profile st;
         crowding_insights := crowding_insights st;
         chatbot := bot |}
  end.

(** What the user does before a rerun, and how the service answers in it. *)
Record interaction : Set := {
  selected : option Z;
  typed : option string;
  answers : service
}.

(** One rerun of the script; an exception in the selection ends it. *)
Definition rerun (commuter_df : list (CommuterRecord num))
    (w : session_state num * random_state num) (i : interaction)
  : session_state num * random_state num :=
  match select_profile commuter_df (selected i) w with
  | (st, s, Some _) => (st, s)
  | (st, s, None) => (handle_prompt (answers i) (typed i) st, s)
  end.

(** The profile and the insights of a session go together: both absent, or
    a row of the table with the insights of a run under the script's
    configuration. *)
Definition coherent (commuter_df : list (CommuterRecord num))
    (st : session_state num) : Prop :=
  match commuter_profile st, crowding_insights st with
  | None, None => True
  | Some profile, Some d =>
      In profile commuter_df
      /\ d <> ∅
      /\ d !! "simulated_pt_capacity" = Some (of_Z DEFAULT_PT_CAPACITY)
      /\ d !! "num_sim_steps" = Some (of_Z NUM_SIM_STEPS)
  | _, _ => False
  end.

(** A session: the reruns of a list of interactions, from the initial
    state. *)
Definition session (commuter_df : list (CommuterRecord num))
    (s : random_state num) (l : list interaction)
  : session_state num * random_state num :=
  fold_left (rerun commuter_df) l (initial, s).
End Script.

(** [str.lower] on ASCII text. *)
Definition lower_char (c : Ascii.ascii) : Ascii.ascii :=
  let n := Ascii.nat_of_ascii c in
  if ((65 <=? n) && (n <=? 90))%nat then Ascii.ascii_of_nat (n + 32) else c.

Fixpoint lower_ascii (s : string) : string :=
  match s with
  | EmptyString => EmptyString
  | String c s' => String (lower_char c) (lower_ascii s')
  end.

(** A session in which the profile of commuter 3 is loaded. *)
Definition loaded_session : session_state Q :=
  {| messages := [];
     commuter_profile := Some (commuter 3 PT 6 5);
     crowding_insights := Some alert_insights;
     chatbot := Chatbot_init |}.

End App.

(** ** Inputs on which rounding decides *)

(** A usual rider with tolerance 0.5, PBC score 5 and attitude score 7, in
    binary64 and with exact numbers; the float nearest to 5/6, and its
    value as a rational. *)
Definition threshold_rider : CommuterAgent float :=
  {| id := 1; usual_mode := PT; current_mode := PT;
     attitude_pt := float_of_Z 7; pbc_pt := float_of_Z 5;
     crowding_tolerance := float_of_Q (5 # 10) |}.

Definition threshold_rider_exact : CommuterAgent Q :=
  {| id := 1; usual_mode := PT; current_mode := PT;
     attitude_pt := 7%Q; pbc_pt := 5%Q; crowding_tolerance := (5 # 10)%Q |}.

Definition five_sixths : float := float_of_Q (5 # 6).

Definition five_sixths_value : Q :=
  (7505999378950827 # 9007199254740992)%Q.

(** A table of two usual riders. *)
Definition two_riders {num : Type} `{PyNum num} : list (CommuterRecord num) :=
  [commuter 1 PT 5 5; commuter 3 PT 6 5].

(** Insights that hold an average and a switch total. *)
Definition insights_of {num : Type} (avg total : num) : gmap string num :=
  <["average_pt_crowding" := avg]>
  (<["total_mode_switches_from_pt" := total]> ∅).

(** ** Facts about the runtime *)

Lemma bind_Ok {A B : Type} (a : A) (k : A -> result B) :
  (Ok a ≫= k) = k a.
Proof. reflexivity. Qed.

Section GenericFacts.
Context {num : Type} `{PyNum num}.

Lemma truediv_nonzero (a b : Z) :
  b <> 0 -> truediv a b = Ok (div (of_Z a) (of_Z b)).
Proof.
  intros Hb. unfold truediv.
  destruct (Z.eqb_spec b 0) as [E | _]; [contradiction | reflexivity].
Qed.

(** The guard of [get_crowding_level] keeps the division from raising. *)
Lemma get_crowding_level_value (line : PublicTransportLine) :
  get_crowding_level line
  = Ok (crowding_of (capacity line) (current_riders line)).
Proof.
  unfold get_crowding_level, crowding_of.
  destruct (Z.eqb_spec (capacity line) 0) as [E | NE]; [reflexivity |].
  rewrite (truediv_nonzero _ _ NE). reflexivity.
Qed.

Lemma decide_on_pt_self (a : CommuterAgent num) (c : num) :
  snd (decide_on_pt a c) = a.
Proof.
  unfold decide_on_pt.
  destruct (negb (String.eqb (usual_mode a) PT)); [reflexivity |].
  destruct (ltb (adjusted_pbc_pt a c) (of_Z 3)
            || ltb (adjusted_attitude_pt a c) (of_Z 3)); reflexivity.
Qed.

Lemma decide_on_pt_not_rider (a : CommuterAgent num) (c : num) :
  usual_mode a <> PT -> fst (decide_on_pt a c) = false.
Proof.
  intros Hm. unfold decide_on_pt.
  destruct (String.eqb_spec (usual_mode a) PT) as [E | _];
    [contradiction | reflexivity].
Qed.

Lemma respond_length (c : num) (agents : list (CommuterAgent num)) :
  forall r m, length (snd (respond c agents r m)) = length agents.
Proof.
  induction agents as [| a rest IH]; intros r m; simpl; [reflexivity |].
  destruct (decide_on_pt a c) as [stays a1].
  destruct stays.
  - specialize (IH (r + 1) m).
    destruct (respond c rest (r + 1) m) as [[r' m'] rest']. simpl in *.
    now rewrite IH.
  - specialize (IH r (m + 1)).
    destruct (respond c rest r (m + 1)) as [[r' m'] rest']. simpl in *.
    now rewrite IH.
Qed.

Lemma decide_on_pt_mark_switched (a : CommuterAgent num) (c : num) :
  fst (decide_on_pt (mark_switched a) c) = fst (decide_on_pt a c).
Proof.
  unfold decide_on_pt, adjusted_pbc_pt, adjusted_attitude_pt, crowding_impact.
  simpl.
  destruct (negb (String.eqb (usual_mode a) PT)); [reflexivity |].
  match goal with |- context [if ?b then _ else _] => destruct b end;
    reflexivity.
Qed.

(** The inner loop counts: every "switch" answer adds one to the counter,
    every other answer one to the riders that stay; the agents keep their
    answers for the next cycle. *)
Lemma respond_counts (c : num) (agents : list (CommuterAgent num)) :
  forall r m,
    fst (respond c agents r m)
    = (r + Z.of_nat (length agents) - Z.of_nat (switchers c agents),
       m + Z.of_nat (switchers c agents))
    /\ switchers c (snd (respond c agents r m)) = switchers c agents.
Proof.
  unfold switchers.
  induction agents as [| a rest IH]; intros r m; simpl.
  - split; [f_equal; lia | reflexivity].
  - pose proof (decide_on_pt_self a c) as Hself.
    pose proof (decide_on_pt_mark_switched a c) as Hmark.
    destruct (decide_on_pt a c) as [stays a1] eqn:Hd. simpl in Hself, Hmark.
    subst a1. destruct stays; simpl.
    + destruct (IH (r + 1) m) as [Hc Hs].
      destruct (respond c rest (r + 1) m) as [[r' m'] rest'].
      simpl in *. rewrite Hd. simpl. split; [| exact Hs].
      inversion Hc; subst. f_equal; lia.
    + destruct (IH r (m + 1)) as [Hc Hs].
      destruct (respond c rest r (m + 1)) as [[r' m'] rest'].
      simpl in *. rewrite Hmark. simpl. split; [| now rewrite Hs].
      inversion Hc; subst. f_equal; lia.
Qed.

Lemma initial_crowdings_app (o1 o2 : list (output num)) :
  initial_crowdings (o1 ++ o2) = initial_crowdings o1 ++ initial_crowdings o2.
Proof.
  induction o1 as [| e o1 IH]; simpl; [reflexivity |].
  destruct e; simpl; now rewrite IH.
Qed.

Lemma final_crowdings_app (o1 o2 : list (output num)) :
  final_crowdings (o1 ++ o2) = final_crowdings o1 ++ final_crowdings o2.
Proof.
  induction o1 as [| e o1 IH]; simpl; [reflexivity |].
  destruct e; simpl; now rewrite IH.
Qed.

Lemma sim_step_effect (st : sim_state num) (step : Z) :
  let c := capacity (pt_line st) in
  let p := Z.of_nat (length (pt_users st)) in
  let x := crowding_of c p in
  let '(after, switches, users) :=
    respond x (pt_users st) 0 (mode_switches_total st) in
  sim_step st step
  = Ok {| pt_line := {| name := name (pt_line st); capacity := c;
                        current_riders := after |};
          mode_switches_total := switches;
          crowding_levels_over_time := crowding_levels_over_time st ++ [x];
          pt_users := users;
          stdout := (stdout st ++ [StepInitial (step + 1) p x])
                    ++ [StepFinal (step + 1) after (crowding_of c after)] |}.
Proof.
  unfold sim_step. rewrite get_crowding_level_value. rewrite bind_Ok.
  simpl capacity. simpl current_riders.
  destruct (respond _ (pt_users st) 0 (mode_switches_total st))
    as [[after switches] users].
  rewrite get_crowding_level_value. reflexivity.
Qed.

(** What the loop maintains: the capacity, the number of usual riders and
    their answers never change; every pass records one more pre-response
    value and counts the same number of switches. *)
Lemma sim_loop_effect (steps : list Z) :
  forall st : sim_state num,
  let x := crowding_of (capacity (pt_line st))
                       (Z.of_nat (length (pt_users st))) in
  exists st',
    sim_loop st steps = Ok st'
    /\ capacity (pt_line st') = capacity (pt_line st)
    /\ length (pt_users st') = length (pt_users st)
    /\ switchers x (pt_users st') = switchers x (pt_users st)
    /\ crowding_levels_over_time st'
       = crowding_levels_over_time st ++ repeat x (length steps)
    /\ initial_crowdings (stdout st')
       = initial_crowdings (stdout st) ++ repeat x (length steps)
    /\ mode_switches_total st'
       = mode_switches_total st
         + Z.of_nat (length steps) * Z.of_nat (switchers x (pt_users st)).
Proof.
  induction steps as [| step steps IH]; intros st x.
  - exists st. simpl. rewrite !app_nil_r. repeat split; auto. lia.
  - pose proof (sim_step_effect st step) as Hstep. simpl in Hstep.
    fold x in Hstep.
    pose proof (respond_length x (pt_users st) 0 (mode_switches_total st))
      as Hlen.
    destruct (respond_counts x (pt_users st) 0 (mode_switches_total st))
      as [Hcount Hkeep].
    destruct (respond x (pt_users st) 0 (mode_switches_total st))
      as [[after switches] users].
    simpl in Hlen, Hcount, Hkeep. inversion Hcount; subst after switches.
    clear Hcount.
    match type of Hstep with _ = Ok ?st1 =>
      destruct (IH st1) as (st' & Hrun & Hcap & Husers & Hsw & Hlevels
                            & Hout & Htotal)
    end.
    simpl in Hcap, Husers, Hsw, Hlevels, Hout, Htotal.
    rewrite Hlen in Husers, Hsw, Hlevels, Hout, Htotal.
    fold x in Hsw, Hlevels, Hout, Htotal.
    exists st'. simpl sim_loop. rewrite Hstep, bind_Ok.
    split; [exact Hrun |]. split; [exact Hcap |]. split; [exact Husers |].
    split; [now rewrite Hsw |].
    split; [rewrite Hlevels, <- app_assoc; reflexivity |].
    split.
    + rewrite Hout, !initial_crowdings_app. simpl.
      rewrite app_nil_r, <- app_assoc. reflexivity.
    + rewrite Htotal, Hkeep. simpl length. lia.
Qed.

Lemma range_length (n : Z) : length (range n) = Z.to_nat n.
Proof. unfold range. now rewrite length_map, length_seq. Qed.

(** [len(l)] is not zero on a list that is not empty, so the division of
    the average never raises. *)
Lemma average_value (l : list num) :
  average l
  = Ok (match l with
        | [] => of_Z 0
        | _ :: _ => div (sum l) (of_Z (Z.of_nat (length l)))
        end).
Proof.
  destruct l as [| x l]; [reflexivity |].
  unfold average, div_int.
  destruct (Z.eqb_spec (Z.of_nat (length (x :: l))) 0) as [E | _];
    [simpl in E; lia | reflexivity].
Qed.

Lemma make_agents_riders (rows : list (CommuterRecord num)) :
  forall s,
    Z.of_nat (length (List.filter is_pt_user (fst (make_agents rows s))))
    = pt_count rows.
Proof.
  unfold pt_count.
  induction rows as [| row rows IH]; intros s; [reflexivity |].
  simpl. specialize (IH (fun k => s (S k))).
  destruct (make_agents rows (fun k => s (S k))) as [agents s2].
  simpl in *. unfold is_pt_user at 1. simpl.
  destruct (String.eqb (UsualCommuteMode row) PT); simpl; lia.
Qed.

(** The run as a whole: it returns; its average is the average of the
    [n] pre-response values, all equal, which are the values printed after
    boarding; its switch counter is [n] times the number of usual riders
    that answer "switch" at that crowding. *)
Lemma run_effect (rows : list (CommuterRecord num)) (c n : Z)
    (s : random_state num) :
  let x := crowding_of c (pt_count rows) in
  let levels := repeat x (Z.to_nat n) in
  exists out avg,
    run_crowding_simulation rows c n s = Ok out
    /\ average levels = Ok avg
    /\ insights out !! "average_pt_crowding" = Some avg
    /\ insights out !! "total_mode_switches_from_pt"
       = Some (of_Z (Z.of_nat (Z.to_nat n)
                     * Z.of_nat (switchers x (pt_users_of rows s))))
    /\ insights out !! "simulated_pt_capacity" = Some (of_Z c)
    /\ insights out !! "num_sim_steps" = Some (of_Z n)
    /\ initial_crowdings (printed out) = levels.
Proof.
  intros x levels.
  destruct (sim_loop_effect (range n) (sim_init rows c s))
    as (st & Hrun & _ & _ & _ & Hlevels & Hout & Htotal).
  simpl in Hlevels, Hout, Htotal.
  rewrite make_agents_riders, range_length in Hlevels, Hout, Htotal.
  fold x in Hlevels, Hout, Htotal. fold levels in Hlevels, Hout.
  unfold run_crowding_simulation.
  rewrite Hrun, bind_Ok, Hlevels, average_value, bind_Ok.
  eexists. eexists.
  split; [reflexivity |]. split; [reflexivity |]. split; [reflexivity |].
  split; [rewrite Htotal; reflexivity |].
  split; [reflexivity |]. split; [reflexivity |].
  simpl. rewrite initial_crowdings_app, Hout. simpl. now rewrite app_nil_r.
Qed.
End GenericFacts.

(** ** Facts about binary64 arithmetic *)

(** The decimal literals of the source, read as doubles. *)
Example binary64_literals :
  float_of_Q (7 # 10) = 0x1.6666666666666p-1%float
  /\ float_of_Q (4 # 10) = 0x1.999999999999ap-2%float
  /\ float_of_Q (5 # 10) = 0x1p-1%float
  /\ float_of_Q (9 # 10) = 0x1.ccccccccccccdp-1%float
  /\ float_of_Q 1 = 0x1p+0%float
  /\ float_of_Q 0 = 0x0p+0%float.
Proof. repeat split; vm_compute; reflexivity. Qed.

(** A draw of 0.25 makes [random.uniform(0.5, 0.9)] return the double 0.6. *)
Example binary64_tolerance :
  fst (random_uniform (of_Q (5 # 10)) (of_Q (9 # 10)) quarter_float)
  = 0x1.3333333333333p-1%float.
Proof. vm_compute. reflexivity. Qed.

(** ** Facts about exact arithmetic *)

Lemma Qltb_lt (x y : Q) : Qltb x y = true <-> (x < y)%Q.
Proof.
  unfold Qltb. rewrite Qlt_alt.
  destruct (x ?= y)%Q; split; intro E; congruence.
Qed.

Lemma Qltb_ge (x y : Q) : Qltb x y = false <-> (y <= x)%Q.
Proof.
  split.
  - intros E. apply Qnot_lt_le. intros L. apply Qltb_lt in L. congruence.
  - intros L. destruct (Qltb x y) eqn:E; [| reflexivity].
    apply Qltb_lt in E. exfalso. apply (Qlt_not_le _ _ E L).
Qed.

Lemma Qleb_le (x y : Q) : Py.leb x y = true <-> (x <= y)%Q.
Proof. apply Qle_bool_iff. Qed.

Lemma max_exact (a b : Q) : Py.max a b = Qmax a b.
Proof.
  unfold Py.max, Qmax, GenericMinMax.gmax. simpl. unfold Qltb.
  destruct (a ?= b)%Q; reflexivity.
Qed.

Lemma min_exact (a b : Q) : Py.min a b = Qmin a b.
Proof.
  unfold Py.min, Qmin, GenericMinMax.gmin. simpl. unfold Qltb.
  rewrite <- (Qcompare_antisym a b).
  destruct (a ?= b)%Q; reflexivity.
Qed.

Lemma fold_add_repeat (x : Q) (n : nat) :
  forall a : Q,
    (fold_left Qplus (repeat x n) a == a + inject_Z (Z.of_nat n) * x)%Q.
Proof.
  induction n as [| n IH]; intros a.
  - simpl. ring.
  - simpl repeat. simpl fold_left. rewrite IH.
    rewrite Nat2Z.inj_succ. unfold Z.succ. rewrite inject_Z_plus. ring.
Qed.

Lemma fold_left_right_Q (l : list Q) :
  forall a : Q, (fold_left Qplus l a == a + fold_right Qplus 0 l)%Q.
Proof.
  induction l as [| x l IH]; intros a; simpl.
  - ring.
  - rewrite IH. ring.
Qed.

(** In exact arithmetic the average of the code is the arithmetic mean. *)
Lemma average_is_mean (l : list Q) (avg : Q) :
  average l = Ok avg -> (avg == mean_Q l)%Q.
Proof.
  rewrite average_value. intros E. injection E as <-.
  destruct l as [| x l]; [reflexivity |].
  unfold mean_Q, Py.sum.
  change (@div Q Exact) with Qdiv. change (@add Q Exact) with Qplus.
  change (@of_Z Q Exact) with inject_Z.
  rewrite fold_left_right_Q. change (inject_Z 0) with 0%Q.
  apply Qdiv_comp; [ring | reflexivity].
Qed.

Lemma average_repeat (x : Q) (n : nat) :
  (0 < n)%nat ->
  exists avg, average (repeat x n) = Ok avg /\ (avg == x)%Q.
Proof.
  intros Hn. rewrite average_value.
  destruct n as [| n]; [lia |].
  eexists. split; [reflexivity |].
  simpl repeat. cbv iota. unfold Py.sum. simpl fold_left.
  simpl length. rewrite repeat_length.
  change (@div Q Exact) with Qdiv. change (@add Q Exact) with Qplus.
  change (@of_Z Q Exact) with inject_Z.
  rewrite fold_add_repeat.
  rewrite Nat2Z.inj_succ. unfold Z.succ. rewrite inject_Z_plus.
  assert (L : (0 <= inject_Z (Z.of_nat n))%Q)
    by (rewrite <- (Zle_Qle 0); lia).
  set (k := inject_Z (Z.of_nat n)) in *.
  change (inject_Z 0) with 0%Q. change (inject_Z 1) with 1%Q.
  field. lra.
Qed.

Lemma crowding_of_exact (c p : Z) :
  c <> 0 -> crowding_of c p = Qmin 1 (inject_Z p / inject_Z c).
Proof.
  intros Hc. unfold crowding_of.
  destruct (Z.eqb_spec c 0) as [E | _]; [contradiction |].
  apply min_exact.
Qed.

Lemma ratio_antitone (p c1 c2 : Z) :
  0 <= p -> 0 < c2 -> c2 < c1 ->
  (inject_Z p / inject_Z c1 <= inject_Z p / inject_Z c2)%Q.
Proof.
  intros Hp H2 H1.
  assert (Q2 : (0 < inject_Z c2)%Q) by (rewrite <- (Zlt_Qlt 0); lia).
  assert (Q1 : (inject_Z c2 < inject_Z c1)%Q) by (rewrite <- Zlt_Qlt; lia).
  assert (Qp : (0 <= inject_Z p)%Q) by (rewrite <- (Zle_Qle 0); lia).
  apply Qle_shift_div_r; [lra |].
  assert (E : (inject_Z p == inject_Z p / inject_Z c2 * inject_Z c2)%Q)
    by (field; lra).
  assert (Hx : (0 <= inject_Z p / inject_Z c2)%Q)
    by (apply Qle_shift_div_l; lra).
  set (x := (inject_Z p / inject_Z c2)%Q) in *.
  nra.
Qed.

(** With exact arithmetic the average of a run of at least one cycle is the
    crowding measured after boarding. *)
Lemma run_exact (rows : list (CommuterRecord Q)) (c n : Z)
    (s : random_state Q) :
  0 < n ->
  exists out avg,
    run_crowding_simulation rows c n s = Ok out
    /\ insights out !! "average_pt_crowding" = Some avg
    /\ (avg == crowding_of c (pt_count rows))%Q
    /\ insights out !! "total_mode_switches_from_pt"
       = Some (inject_Z (n * Z.of_nat (switchers (crowding_of c (pt_count rows))
                                                  (pt_users_of rows s))))
    /\ initial_crowdings (printed out)
       = repeat (crowding_of c (pt_count rows)) (Z.to_nat n).
Proof.
  intros Hn.
  destruct (run_effect rows c n s)
    as (out & avg & Hrun & Havg & Hlook & Hsw & _ & _ & Hinit).
  destruct (average_repeat (crowding_of c (pt_count rows)) (Z.to_nat n))
    as (avg' & Havg' & Heq); [lia |].
  rewrite Havg in Havg'. injection Havg' as <-.
  exists out, avg. rewrite Z2Nat.id in Hsw by lia. auto.
Qed.

Lemma pt_count_nonneg {num : Type} (rows : list (CommuterRecord num)) :
  0 <= pt_count rows.
Proof. unfold pt_count. lia. Qed.

Lemma decide_on_pt_verdict (a : CommuterAgent Q) (c : Q) :
  usual_mode a = PT ->
  fst (decide_on_pt a c) = false
  <-> (adjusted_pbc_pt a c < 3 \/ adjusted_attitude_pt a c < 3)%Q.
Proof.
  intros Hm. unfold decide_on_pt. rewrite Hm. simpl negb.
  change (@ltb Q Exact) with Qltb. change (@of_Z Q Exact 3) with 3%Q.
  destruct (Qltb (adjusted_pbc_pt a c) 3) eqn:E1;
    destruct (Qltb (adjusted_attitude_pt a c) 3) eqn:E2; simpl;
    rewrite ?Qltb_lt, ?Qltb_ge in *; split; auto; try discriminate.
  intros [L | L]; exfalso; [apply (Qlt_not_le _ _ L E1) | apply (Qlt_not_le _ _ L E2)].
Qed.



(** Over exact numbers the same formulas answer differently on this input:
    the adjusted PBC is 3 - 2^-52 there, and in binary64 the product
    crowding_impact * 3 = 2 + 2^-52 is rounded to 2.  The rule is that of
    the arithmetic the program runs in. *)
Example decide_on_pt_rounding :
  PrimFloat.eqb (float_of_Q five_sixths_value) five_sixths = true
  /\ (adjusted_pbc_pt threshold_rider_exact five_sixths_value
      == 3 - (1 # 4503599627370496))%Q
  /\ fst (decide_on_pt threshold_rider_exact five_sixths_value) = false
  /\ mul (crowding_impact threshold_rider five_sixths) (of_Z 3)
     = float_of_Z 2.
Proof. repeat split; vm_compute; reflexivity. Qed.

(** ** The claims about the simulation *)

(** C9. [decide_on_pt] leaves every field of the agent as it was, whatever
    the agent and the perceived crowding; and an agent whose usual mode is
    not Public Transport gets the answer false at every crowding. *)
Theorem decide_on_pt_no_side_effect (num : Type) (A : PyNum num)
    (self : CommuterAgent num) (c : num) :
  snd (decide_on_pt self c) = self
  /\ (usual_mode self <> PT ->
      forall c' : num, fst (decide_on_pt self c') = false).
Proof.
  split.
  - apply decide_on_pt_self.
  - intros Hm c'. now apply decide_on_pt_not_rider.
Qed.

Lemma decide_on_pt_no_side_effect_witness :
  fst (decide_on_pt car_driver 1%Q) = false.
Proof.
  apply (proj2 (decide_on_pt_no_side_effect Q Exact car_driver 1%Q)).
  discriminate.
Defined.

Lemma crowding_of_bounds (c r : Z) :
  0 <= c -> 0 <= r ->
  (0 <= crowding_of (num := Q) c r)%Q /\ (crowding_of (num := Q) c r <= 1)%Q.
Proof.
  intros Hc Hr. unfold crowding_of.
  destruct (Z.eqb_spec c 0) as [E | NE].
  - simpl. split; [apply Qle_refl | discriminate].
  - rewrite min_exact. simpl of_Q.
    change (@of_Z Q Exact) with inject_Z. change (@div Q Exact) with Qdiv.
    assert (Qc : (0 < inject_Z c)%Q) by (rewrite <- (Zlt_Qlt 0); lia).
    assert (Qr : (0 <= inject_Z r)%Q) by (rewrite <- (Zle_Qle 0); lia).
    split.
    + apply Q.min_glb; [discriminate |].
      apply Qle_shift_div_l; [exact Qc | lra].
    + apply Q.le_min_l.
Qed.

(** C7. The operations of the transit line never raise.
    [get_crowding_level] returns a value in every arithmetic; with exact
    arithmetic that value is 0 when the capacity is 0 and
    min(1, riders / capacity) otherwise, and it lies in [0,1] on a line
    whose capacity and rider count are not negative.  [remove_rider] leaves
    max(0, riders - 1) riders, which is never negative. *)
Theorem transit_line_total :
  (forall (num : Type) (A : PyNum num) (line : PublicTransportLine),
      exists x : num, get_crowding_level line = Ok x)
  /\ (forall line : PublicTransportLine,
        exists q : Q,
          get_crowding_level line = Ok q
          /\ (capacity line = 0 -> q = 0%Q)
          /\ (capacity line <> 0 ->
              q = Qmin 1 (inject_Z (current_riders line)
                          / inject_Z (capacity line)))
          /\ (0 <= capacity line -> 0 <= current_riders line ->
              (0 <= q)%Q /\ (q <= 1)%Q))
  /\ (forall line : PublicTransportLine,
        current_riders (remove_rider line) = Z.max 0 (current_riders line - 1)
        /\ 0 <= current_riders (remove_rider line)
        /\ capacity (remove_rider line) = capacity line).
Proof.
  split; [| split].
  - intros num A line. eexists. apply get_crowding_level_value.
  - intros line. exists (crowding_of (capacity line) (current_riders line)).
    split; [apply get_crowding_level_value |].
    split; [| split].
    + intros E. unfold crowding_of. rewrite E. reflexivity.
    + intros NE. now apply crowding_of_exact.
    + apply crowding_of_bounds.
  - intros line. unfold remove_rider. simpl.
    destruct (Z.ltb_spec 0 (current_riders line - 1)); repeat split; lia.
Qed.

Lemma transit_line_total_witness :
  exists q : Q,
    get_crowding_level crowded_line = Ok q /\ (0 <= q)%Q /\ (q <= 1)%Q.
Proof.
  destruct (proj1 (proj2 transit_line_total) crowded_line)
    as (q & Hq & _ & _ & Hb).
  exists q. split; [exact Hq |]. apply Hb; discriminate.
Defined.

Lemma switchers_nil {num : Type} `{PyNum num} (rows : list (CommuterRecord num))
    (s : random_state num) (x : num) :
  pt_count rows = 0 -> switchers x (pt_users_of rows s) = 0%nat.
Proof.
  intros Hz. pose proof (make_agents_riders rows s) as Hp.
  rewrite Hz in Hp. unfold pt_users_of, agents_of.
  destruct (List.filter is_pt_user (fst (make_agents rows s)));
    [reflexivity | simpl in Hp; lia].
Qed.

(** C3. In every arithmetic, for every table, capacity, cycle count and
    random source, the run returns and its average_pt_crowding is the
    average of the crowding values recorded after boarding, one per cycle,
    each of them the crowding of the line loaded with all usual riders;
    with exact arithmetic it is their arithmetic mean.
    The values recomputed after the agents responded are printed only: in
    the run of five commuters on a line of capacity 3 they differ from the
    recorded ones (0 against 1) and the average is 1. *)
Theorem average_uses_pre_response_only :
  (forall (num : Type) (A : PyNum num) (rows : list (CommuterRecord num))
          (c n : Z) (s : random_state num),
      exists out avg,
        run_crowding_simulation rows c n s = Ok out
        /\ insights out !! "average_pt_crowding" = Some avg
        /\ average (initial_crowdings (printed out)) = Ok avg
        /\ length (initial_crowdings (printed out)) = Z.to_nat n
        /\ Forall (fun x =>
                     get_crowding_level
                       {| name := "Main PT Line"; capacity := c;
                          current_riders := pt_count rows |} = Ok x)
                  (initial_crowdings (printed out)))
  /\ (forall (rows : list (CommuterRecord Q)) (c n : Z) (s : random_state Q),
        exists out avg,
          run_crowding_simulation rows c n s = Ok out
          /\ insights out !! "average_pt_crowding" = Some avg
          /\ (avg == mean_Q (initial_crowdings (printed out)))%Q)
  /\ (exists out,
        run_crowding_simulation five_commuters 3 1 quarter_Q = Ok out
        /\ initial_crowdings (printed out) = [1%Q]
        /\ final_crowdings (printed out) = [(0 # 3)%Q]
        /\ insights out !! "average_pt_crowding" = Some 1%Q).
Proof.
  split; [| split].
  - intros num A rows c n s.
    destruct (run_effect rows c n s)
      as (out & avg & Hrun & Havg & Hlook & _ & _ & _ & Hinit).
    exists out, avg. rewrite Hinit.
    split; [exact Hrun |]. split; [exact Hlook |]. split; [exact Havg |].
    split; [apply repeat_length |].
    apply List.Forall_forall. intros x Hx. apply repeat_spec in Hx. subst x.
    apply get_crowding_level_value.
  - intros rows c n s.
    destruct (run_effect rows c n s)
      as (out & avg & Hrun & Havg & Hlook & _ & _ & _ & Hinit).
    exists out, avg. rewrite Hinit.
    split; [exact Hrun |]. split; [exact Hlook |].
    now apply average_is_mean.
  - eexists. split; [vm_compute; reflexivity |].
    repeat split; vm_compute; reflexivity.
Qed.

(** C5. Degenerate inputs give results, not errors.  With no usual rider in
    the table, for every capacity and cycle count, the run returns with an
    average crowding equal to 0 and a switch counter of 0; with zero
    cycles, in every arithmetic, the run returns with the average 0. *)
Theorem degenerate_runs :
  (forall (rows : list (CommuterRecord Q)) (c n : Z) (s : random_state Q),
      pt_count rows = 0 ->
      exists out avg,
        run_crowding_simulation rows c n s = Ok out
        /\ insights out !! "average_pt_crowding" = Some avg
        /\ (avg == 0)%Q
        /\ insights out !! "total_mode_switches_from_pt" = Some 0%Q)
  /\ (forall (num : Type) (A : PyNum num) (rows : list (CommuterRecord num))
             (c : Z) (s : random_state num),
        exists out,
          run_crowding_simulation rows c 0 s = Ok out
          /\ insights out !! "average_pt_crowding" = Some (of_Z 0)
          /\ insights out !! "total_mode_switches_from_pt" = Some (of_Z 0)).
Proof.
  split.
  - intros rows c n s Hz.
    destruct (run_effect rows c n s)
      as (out & avg & Hrun & Havg & Hlook & Hsw & _ & _ & _).
    rewrite (switchers_nil rows s _ Hz), Z.mul_0_r in Hsw.
    exists out, avg. split; [exact Hrun |]. split; [exact Hlook |].
    split; [| exact Hsw].
    destruct (Z.to_nat n) as [| k] eqn:Hn.
    + simpl in Havg. injection Havg as <-. reflexivity.
    + destruct (average_repeat (crowding_of c (pt_count rows)) (S k))
        as (avg' & Havg' & Heq); [lia |].
      rewrite Havg in Havg'. injection Havg' as <-.
      rewrite Heq, Hz. unfold crowding_of.
      destruct (Z.eqb_spec c 0) as [E | NE]; [reflexivity |].
      rewrite min_exact.
      change (@of_Z Q Exact) with inject_Z. change (@div Q Exact) with Qdiv.
      change (inject_Z 0) with 0%Q. simpl of_Q.
      assert (E0 : (0 / inject_Z c == 0)%Q) by (unfold Qdiv; ring).
      rewrite E0. reflexivity.
  - intros num A rows c s.
    destruct (run_effect rows c 0 s)
      as (out & avg & Hrun & Havg & Hlook & Hsw & _ & _ & _).
    simpl in Havg. injection Havg as <-.
    exists out. auto.
Qed.

Lemma degenerate_runs_witness :
  exists out avg,
    run_crowding_simulation no_riders 10 5 quarter_Q = Ok out
    /\ insights out !! "average_pt_crowding" = Some avg
    /\ (avg == 0)%Q
    /\ insights out !! "total_mode_switches_from_pt" = Some 0%Q.
Proof. exact (proj1 degenerate_runs no_riders 10 5 quarter_Q eq_refl). Defined.

(** The zero-rider scenario of the specification in binary64. *)
Example degenerate_run_binary64 :
  exists out,
    run_crowding_simulation no_riders 10 5 quarter_float = Ok out
    /\ insights out !! "average_pt_crowding" = Some (float_of_Q 0)
    /\ insights out !! "total_mode_switches_from_pt" = Some (float_of_Z 0).
Proof.
  eexists. split; [vm_compute; reflexivity |].
  split; vm_compute; reflexivity.
Qed.

(** C6. With the table and the cycle count N > 0 fixed, a run on the
    smaller of two positive capacities has an average crowding at least as
    large as a run on the larger one. *)
Theorem crowding_monotone_in_capacity (rows : list (CommuterRecord Q))
    (n c1 c2 : Z) (s1 s2 : random_state Q) :
  0 < n -> 0 < c2 -> c2 < c1 ->
  exists out1 out2 avg1 avg2,
    run_crowding_simulation rows c1 n s1 = Ok out1
    /\ run_crowding_simulation rows c2 n s2 = Ok out2
    /\ insights out1 !! "average_pt_crowding" = Some avg1
    /\ insights out2 !! "average_pt_crowding" = Some avg2
    /\ (avg1 <= avg2)%Q.
Proof.
  intros Hn H2 H1.
  destruct (run_exact rows c1 n s1 Hn) as (out1 & avg1 & R1 & L1 & E1 & _).
  destruct (run_exact rows c2 n s2 Hn) as (out2 & avg2 & R2 & L2 & E2 & _).
  exists out1, out2, avg1, avg2. repeat split; auto.
  rewrite E1, E2, !crowding_of_exact by lia.
  apply Q.min_le_compat_l.
  apply ratio_antitone; [apply pt_count_nonneg | lia | lia].
Qed.

Lemma crowding_monotone_in_capacity_witness :
  exists out1 out2 avg1 avg2,
    run_crowding_simulation five_commuters 100 3 quarter_Q = Ok out1
    /\ run_crowding_simulation five_commuters 3 3 quarter_Q = Ok out2
    /\ insights out1 !! "average_pt_crowding" = Some avg1
    /\ insights out2 !! "average_pt_crowding" = Some avg2
    /\ (avg1 <= avg2)%Q.
Proof.
  exact (crowding_monotone_in_capacity five_commuters 3 100 3
           quarter_Q quarter_Q eq_refl eq_refl eq_refl).
Defined.

(** C10, as amended.  For a capacity C > 0 and N > 0 cycles, every value
    recorded after boarding is min(1, P / C), P being the number of usual
    riders, and the returned average is the sum of N copies of it divided
    by N, in every arithmetic: it depends on P, C and N only, not on any
    score or tolerance.  With exact arithmetic that average is
    min(1, P / C). *)
Theorem average_is_boarding_crowding :
  (forall (num : Type) (A : PyNum num) (rows : list (CommuterRecord num))
          (c n : Z) (s : random_state num),
      0 < n -> 0 < c ->
      let x := min (of_Q 1) (div (of_Z (pt_count rows)) (of_Z c)) in
      exists out,
        run_crowding_simulation rows c n s = Ok out
        /\ initial_crowdings (printed out) = repeat x (Z.to_nat n)
        /\ insights out !! "average_pt_crowding"
           = Some (div (sum (repeat x (Z.to_nat n))) (of_Z n)))
  /\ (forall (rows : list (CommuterRecord Q)) (c n : Z) (s : random_state Q),
        0 < n -> 0 < c ->
        exists out avg,
          run_crowding_simulation rows c n s = Ok out
          /\ insights out !! "average_pt_crowding" = Some avg
          /\ (avg == Qmin 1 (inject_Z (pt_count rows) / inject_Z c))%Q).
Proof.
  split.
  - intros num A rows c n s Hn Hc x.
    destruct (run_effect rows c n s)
      as (out & avg & Hrun & Havg & Hlook & _ & _ & _ & Hinit).
    assert (Hx : crowding_of c (pt_count rows) = x).
    { unfold crowding_of. destruct (Z.eqb_spec c 0); [lia | reflexivity]. }
    rewrite Hx in Havg, Hinit.
    exists out. split; [exact Hrun |]. split; [exact Hinit |].
    rewrite Hlook. f_equal.
    rewrite average_value in Havg. injection Havg as <-.
    assert (Hl : Z.of_nat (length (repeat x (Z.to_nat n))) = n)
      by (rewrite repeat_length; lia).
    destruct (repeat x (Z.to_nat n)) as [| y l];
      [simpl in Hl; lia | now rewrite Hl].
  - intros rows c n s Hn Hc.
    destruct (run_exact rows c n s Hn) as (out & avg & R & L & E & _).
    exists out, avg. rewrite crowding_of_exact in E by lia. auto.
Qed.

(** C10 as stated fails in the arithmetic CPython uses: with one usual
    rider, capacity 10 and 3 cycles the three recorded values are
    min(1.0, 1/10) = 0.1 and the average is 0.10000000000000002, which [==]
    tells apart from 0.1. *)
Lemma average_differs_in_binary64 :
  exists out,
    run_crowding_simulation one_rider 10 3 quarter_float = Ok out
    /\ min (of_Q 1) (div (of_Z (pt_count (num := float) one_rider)) (of_Z 10))
       = 0x1.999999999999ap-4%float
    /\ initial_crowdings (printed out)
       = [0x1.999999999999ap-4%float; 0x1.999999999999ap-4%float;
          0x1.999999999999ap-4%float]
    /\ insights out !! "average_pt_crowding"
       = Some 0x1.999999999999bp-4%float
    /\ PrimFloat.eqb 0x1.999999999999bp-4 0x1.999999999999ap-4 = false.
Proof.
  eexists. split; [vm_compute; reflexivity |].
  repeat split; vm_compute; reflexivity.
Qed.

Lemma average_is_boarding_crowding_witness :
  exists out avg,
    run_crowding_simulation one_rider 10 3 quarter_Q = Ok out
    /\ insights out !! "average_pt_crowding" = Some avg
    /\ (avg == 1 # 10)%Q.
Proof.
  destruct (proj2 average_is_boarding_crowding one_rider 10 3 quarter_Q
                  eq_refl eq_refl)
    as (out & avg & R & L & E).
  exists out, avg. split; [exact R |]. split; [exact L |].
  rewrite E. reflexivity.
Defined.

Lemma switchers_all {num : Type} `{PyNum num} (x : num)
    (agents : list (CommuterAgent num)) :
  List.Forall (fun a => fst (decide_on_pt a x) = false) agents ->
  switchers x agents = length agents.
Proof.
  unfold switchers. induction 1 as [| a rest Ha _ IH]; simpl;
    [reflexivity |].
  rewrite Ha. simpl. now rewrite IH.
Qed.

Lemma pt_users_of_usual_mode {num : Type} `{PyNum num}
    (rows : list (CommuterRecord num)) (s : random_state num)
    (a : CommuterAgent num) :
  In a (pt_users_of rows s) -> usual_mode a = PT.
Proof.
  unfold pt_users_of. intros Hin. apply List.filter_In in Hin.
  destruct Hin as [_ Hpt]. now apply String.eqb_eq.
Qed.

(** The agent of the scenario: at crowding 1, a tolerance of 0.6 gives an
    impact of 0.8, which takes a PBC score of 5 down to 2.6. *)
Lemma scenario_agent (a : CommuterAgent Q) :
  usual_mode a = PT ->
  (pbc_pt a == 5)%Q -> (crowding_tolerance a == 6 # 10)%Q ->
  (crowding_impact a 1%Q == 8 # 10)%Q
  /\ (adjusted_pbc_pt a 1%Q == 26 # 10)%Q
  /\ fst (decide_on_pt a 1%Q) = false.
Proof.
  intros Hm Hp Ht.
  assert (Hi : (crowding_impact a 1%Q == 8 # 10)%Q).
  { unfold crowding_impact. rewrite max_exact.
    change (@of_Z Q Exact 0) with 0%Q. change (@of_Z Q Exact 2) with 2%Q.
    change (@mul Q Exact) with Qmult. change (@sub Q Exact) with Qminus.
    destruct (Q.max_spec 0 (1 - crowding_tolerance a)) as [[_ E] | [L _]];
      [rewrite E; lra | lra]. }
  assert (Hb : (adjusted_pbc_pt a 1%Q == 26 # 10)%Q).
  { unfold adjusted_pbc_pt. rewrite max_exact.
    change (@of_Z Q Exact 1) with 1%Q. change (@of_Z Q Exact 3) with 3%Q.
    change (@mul Q Exact) with Qmult. change (@sub Q Exact) with Qminus.
    destruct (Q.max_spec 1 (pbc_pt a - crowding_impact a 1%Q * 3))
      as [[_ E] | [L _]]; [rewrite E; lra | lra]. }
  repeat split; auto.
  apply decide_on_pt_verdict; [exact Hm |]. left. rewrite Hb. reflexivity.
Qed.

(** C8. The scenario: a table of 5 commuters, 3 of them usual riders with a
    PBC score of 5 and a sampled tolerance of 0.6, run on a line of capacity
    3 for one cycle.  The crowding recorded after boarding is
    min(1, 3/3) = 1; every usual rider has a crowding impact of 0.8 and an
    adjusted PBC of 2.6, below 3, and answers "switch"; the result counts
    3 switches and an average crowding of 1. *)
Theorem scenario_three_of_five (rows : list (CommuterRecord Q))
    (s : random_state Q) :
  length rows = 5%nat ->
  pt_count rows = 3 ->
  List.Forall (fun a => (pbc_pt a == 5)%Q
                        /\ (crowding_tolerance a == 6 # 10)%Q)
              (pt_users_of rows s) ->
  exists out avg,
    run_crowding_simulation rows 3 1 s = Ok out
    /\ initial_crowdings (printed out) = [1%Q]
    /\ List.Forall (fun a => (crowding_impact a 1%Q == 8 # 10)%Q
                             /\ (adjusted_pbc_pt a 1%Q == 26 # 10)%Q
                             /\ (adjusted_pbc_pt a 1%Q < 3)%Q
                             /\ fst (decide_on_pt a 1%Q) = false)
                   (pt_users_of rows s)
    /\ insights out !! "total_mode_switches_from_pt" = Some 3%Q
    /\ insights out !! "average_pt_crowding" = Some avg
    /\ (avg == 1)%Q.
Proof.
  intros _ Hp Hall.
  assert (Hagents :
            List.Forall (fun a => (crowding_impact a 1%Q == 8 # 10)%Q
                                  /\ (adjusted_pbc_pt a 1%Q == 26 # 10)%Q
                                  /\ (adjusted_pbc_pt a 1%Q < 3)%Q
                                  /\ fst (decide_on_pt a 1%Q) = false)
                        (pt_users_of rows s)).
  { apply List.Forall_forall. intros a Hin.
    pose proof (pt_users_of_usual_mode rows s a Hin) as Hm.
    rewrite List.Forall_forall in Hall. destruct (Hall a Hin) as [Hb Ht].
    destruct (scenario_agent a Hm Hb Ht) as (Hi & Hadj & Hv).
    repeat split; auto. rewrite Hadj. reflexivity. }
  destruct (run_exact rows 3 1 s) as (out & avg & R & L & E & Hsw & Hinit);
    [lia |].
  rewrite Hp in E, Hsw, Hinit.
  change (crowding_of (num := Q) 3 3) with 1%Q in E, Hsw, Hinit.
  rewrite switchers_all in Hsw.
  2:{ eapply List.Forall_impl; [| exact Hagents]. intros a H. apply H. }
  assert (Hlen : Z.of_nat (length (pt_users_of rows s)) = 3)
    by (rewrite <- Hp; apply make_agents_riders).
  rewrite Hlen in Hsw.
  exists out, avg. repeat split; auto.
Qed.

Lemma scenario_three_of_five_witness :
  exists out avg,
    run_crowding_simulation five_commuters 3 1 quarter_Q = Ok out
    /\ insights out !! "total_mode_switches_from_pt" = Some 3%Q
    /\ insights out !! "average_pt_crowding" = Some avg
    /\ (avg == 1)%Q.
Proof.
  destruct (scenario_three_of_five five_commuters quarter_Q eq_refl eq_refl)
    as (out & avg & R & _ & _ & Hsw & L & E).
  - repeat constructor; vm_compute; reflexivity.
  - exists out, avg. auto.
Defined.

(** The same scenario in binary64: the adjusted PBC is 2.5999999999999996,
    still below 3, and the result is the same. *)
Example scenario_three_of_five_binary64 :
  exists out,
    run_crowding_simulation five_commuters 3 1 quarter_float = Ok out
    /\ List.map crowding_tolerance (pt_users_of five_commuters quarter_float)
       = [float_of_Q (6 # 10); float_of_Q (6 # 10); float_of_Q (6 # 10)]
    /\ List.map (fun a => PrimFloat.ltb (adjusted_pbc_pt a (float_of_Z 1))
                                        (float_of_Z 3))
                (pt_users_of five_commuters quarter_float)
       = [true; true; true]
    /\ insights out !! "total_mode_switches_from_pt" = Some (float_of_Z 3)
    /\ insights out !! "average_pt_crowding" = Some (float_of_Z 1).
Proof.
  eexists. split; [vm_compute; reflexivity |].
  repeat split; vm_compute; reflexivity.
Qed.

(** ** The claims about the recommendations *)

Ltac split_ifs :=
  repeat match goal with
         | |- context [if ?b then _ else _] => destruct b
         end.

(** The wording tells the kinds of message apart: two messages that start
    with the same text are equal, or are the same crowding or switch message
    with two numbers. *)
Lemma opening_kind {num : Type} (r1 r2 : recommendation num) :
  opening r1 = opening r2 ->
  r1 = r2
  \/ (exists a b, r1 = Crowding_alert a /\ r2 = Crowding_alert b)
  \/ (exists a b, r1 = Crowding_moderate a /\ r2 = Crowding_moderate b)
  \/ (exists a b, r1 = Crowding_low a /\ r2 = Crowding_low b)
  \/ (exists a b, r1 = Switches_observed a /\ r2 = Switches_observed b).
Proof.
  destruct r1, r2; simpl; intros E; try discriminate E; eauto 10.
Qed.

Section RuleFacts.
Context {num : Type} `{PyNum num}.

(** The attitude, norm and control rules append none of the crowding, switch
    or fallback messages. *)
Lemma tpb_rules_kinds (user_profile : CommuterRecord num) :
  List.filter is_crowding_level (tpb_rules user_profile) = []
  /\ List.filter is_switch_message (tpb_rules user_profile) = []
  /\ List.filter is_fallback (tpb_rules user_profile) = [].
Proof.
  unfold tpb_rules, walkcycle_rules, car_rules, pt_rules, append_if.
  split_ifs; repeat split; reflexivity.
Qed.

Lemma filter_snoc (f : recommendation num -> bool)
    (l : list (recommendation num)) (r : recommendation num) :
  List.filter f (l ++ [r]) = List.filter f l ++ (if f r then [r] else []).
Proof. rewrite List.filter_app. reflexivity. Qed.

Lemma truthy_nonempty (d : gmap string num) : d <> ∅ -> truthy d = true.
Proof.
  intros Hne. unfold truthy. rewrite bool_decide_eq_false_2; auto.
Qed.

Lemma rule_recommendations_no_fallback (user_profile : CommuterRecord num)
    (crowding_insights : option (gmap string num)) :
  List.filter is_fallback (rule_recommendations user_profile crowding_insights)
  = [].
Proof.
  destruct (tpb_rules_kinds user_profile) as (_ & _ & Hf).
  unfold rule_recommendations, crowding_rules, append_if.
  fold (tpb_rules user_profile).
  destruct crowding_insights as [d |]; [| exact Hf].
  split_ifs; rewrite ?filter_snoc, Hf; reflexivity.
Qed.
End RuleFacts.

(** C4. In every arithmetic, for every profile and every insights argument,
    absent or not, [generate_recommendations] returns a list that is not
    empty: when the rules produced nothing the result is the balanced-view
    message alone, and otherwise it is what the rules produced, without that
    message.  A profile with every score at 4 and no insights gets exactly
    the balanced-view message. *)
Theorem recommendations_never_empty :
  (forall (num : Type) (A : PyNum num) (user_profile : CommuterRecord num)
          (crowding_insights : option (gmap string num)),
      generate_recommendations user_profile crowding_insights <> []
      /\ (rule_recommendations user_profile crowding_insights = []
          /\ generate_recommendations user_profile crowding_insights
             = [Balanced_view]
          \/ rule_recommendations user_profile crowding_insights <> []
             /\ generate_recommendations user_profile crowding_insights
                = rule_recommendations user_profile crowding_insights
             /\ ~ In Balanced_view
                     (generate_recommendations user_profile
                                               crowding_insights)))
  /\ (forall (i : Z) (mode : string),
        generate_recommendations (flat_profile i mode 4%Q) None
        = [Balanced_view])
  /\ (forall (i : Z) (mode : string),
        generate_recommendations (flat_profile i mode (float_of_Z 4)) None
        = [Balanced_view]).
Proof.
  split; [| split].
  - intros num A p ci.
    pose proof (rule_recommendations_no_fallback p ci) as Hf.
    unfold generate_recommendations.
    destruct (rule_recommendations p ci) as [| r rs] eqn:E.
    + split; [discriminate | left; auto].
    + split; [discriminate | right]. split; [discriminate |].
      split; [reflexivity |].
      intros Hin.
      assert (Hin' : In Balanced_view (List.filter is_fallback (r :: rs)))
        by (apply List.filter_In; auto).
      rewrite Hf in Hin'. exact Hin'.
  - intros i mode. reflexivity.
  - intros i mode. vm_compute. reflexivity.
Qed.

(** With insights that hold an entry the crowding rules append one level
    message, chosen by the two threshold tests in turn, and then the switch
    message or nothing. *)
Lemma crowding_rules_some {num : Type} `{PyNum num}
    (user_profile : CommuterRecord num) (d : gmap string num)
    (l : list (recommendation num)) :
  d <> ∅ ->
  let avg := get0 d "average_pt_crowding" in
  let sw := get0 d "total_mode_switches_from_pt" in
  crowding_rules user_profile (Some d) l
  = l ++ (if ltb (of_Q (7 # 10)) avg then Crowding_alert avg
          else if ltb (of_Q (4 # 10)) avg then Crowding_moderate avg
          else Crowding_low avg)
      :: (if ltb (of_Z 0) sw
             && String.eqb (UsualCommuteMode user_profile) PT
          then [Switches_observed sw] else []).
Proof.
  intros Hne avg sw. unfold crowding_rules.
  rewrite (truthy_nonempty d Hne). fold avg. fold sw. unfold append_if.
  destruct (ltb (of_Q (7 # 10)) avg);
    [| destruct (ltb (of_Q (4 # 10)) avg)];
    destruct (ltb (of_Z 0) sw
              && String.eqb (UsualCommuteMode user_profile) PT);
    rewrite <- ?app_assoc; reflexivity.
Qed.

(** C2. In every arithmetic, for every profile and every insights record
    (a dict that holds its entries; one entry is all the statement needs),
    the result is what the attitude, norm and control rules produced,
    followed by exactly one crowding-level message and then by the switch
    message or nothing.  The level message is the alert one when the average
    crowding is above 0.7, the moderate one when it is above 0.4 and not
    above 0.7, the low one when it is not above 0.4, the comparisons being
    those the program makes; no other message of the result is a
    crowding-level message.  The switch message is there if and only if the
    total of switches is above 0 and the usual mode of the profile is Public
    Transport. *)
Theorem crowding_branch_messages (num : Type) (A : PyNum num)
    (user_profile : CommuterRecord num) (d : gmap string num) :
  d <> ∅ ->
  let avg := get0 d "average_pt_crowding" in
  let sw := get0 d "total_mode_switches_from_pt" in
  let out := generate_recommendations user_profile (Some d) in
  exists level switch,
    out = tpb_rules user_profile ++ level :: switch
    /\ List.filter is_crowding_level out = [level]
    /\ (ltb (of_Q (7 # 10)) avg = true /\ level = Crowding_alert avg
        \/ ltb (of_Q (7 # 10)) avg = false
           /\ ltb (of_Q (4 # 10)) avg = true
           /\ level = Crowding_moderate avg
        \/ ltb (of_Q (7 # 10)) avg = false
           /\ ltb (of_Q (4 # 10)) avg = false
           /\ level = Crowding_low avg)
    /\ List.filter is_switch_message out = switch
    /\ (ltb (of_Z 0) sw = true /\ UsualCommuteMode user_profile = PT
        /\ switch = [Switches_observed sw]
        \/ ~ (ltb (of_Z 0) sw = true /\ UsualCommuteMode user_profile = PT)
           /\ switch = []).
Proof.
  intros Hne avg sw out.
  pose proof (crowding_rules_some user_profile d (tpb_rules user_profile) Hne)
    as Hrules.
  cbv zeta in Hrules. fold avg in Hrules. fold sw in Hrules.
  assert (Hlevel : exists level,
             (if ltb (of_Q (7 # 10)) avg then Crowding_alert avg
              else if ltb (of_Q (4 # 10)) avg then Crowding_moderate avg
              else Crowding_low avg) = level
             /\ is_crowding_level level = true
             /\ is_switch_message level = false
             /\ (ltb (of_Q (7 # 10)) avg = true /\ level = Crowding_alert avg
                 \/ ltb (of_Q (7 # 10)) avg = false
                    /\ ltb (of_Q (4 # 10)) avg = true
                    /\ level = Crowding_moderate avg
                 \/ ltb (of_Q (7 # 10)) avg = false
                    /\ ltb (of_Q (4 # 10)) avg = false
                    /\ level = Crowding_low avg)).
  { destruct (ltb (of_Q (7 # 10)) avg);
      [| destruct (ltb (of_Q (4 # 10)) avg)];
      eexists; (split; [reflexivity |]); simpl; auto 10. }
  assert (Hswitch : exists switch,
             (if ltb (of_Z 0) sw
                 && String.eqb (UsualCommuteMode user_profile) PT
              then [Switches_observed sw] else []) = switch
             /\ List.filter is_crowding_level switch = []
             /\ List.filter is_switch_message switch = switch
             /\ (ltb (of_Z 0) sw = true /\ UsualCommuteMode user_profile = PT
                 /\ switch = [Switches_observed sw]
                 \/ ~ (ltb (of_Z 0) sw = true
                       /\ UsualCommuteMode user_profile = PT)
                    /\ switch = [])).
  { destruct (ltb (of_Z 0) sw); simpl.
    - destruct (String.eqb_spec (UsualCommuteMode user_profile) PT)
        as [E | N]; eexists; (split; [reflexivity |]); simpl;
        (split; [reflexivity |]); (split; [reflexivity |]);
        [left; auto | right; split; [tauto | reflexivity]].
    - eexists. split; [reflexivity |]. simpl.
      split; [reflexivity |]. split; [reflexivity |].
      right. split; [| reflexivity]. intros [E _]. discriminate E. }
  destruct Hlevel as (level & El & Hc1 & Hs1 & Hlevel).
  destruct Hswitch as (switch & Es & Hc2 & Hs2 & Hswitch).
  rewrite El, Es in Hrules.
  assert (Hout : out = tpb_rules user_profile ++ level :: switch).
  { unfold out, generate_recommendations, rule_recommendations.
    fold (tpb_rules user_profile). rewrite Hrules.
    destruct (tpb_rules user_profile); reflexivity. }
  destruct (tpb_rules_kinds user_profile) as (Hc & Hs & _).
  exists level, switch. rewrite Hout, !List.filter_app, Hc, Hs.
  simpl. rewrite Hc1, Hs1, Hc2, Hs2.
  repeat split; auto.
Qed.

Lemma crowding_branch_messages_witness :
  generate_recommendations (flat_profile 102 PT 4%Q) (Some alert_insights)
  = [Crowding_alert (85 # 100)%Q; Switches_observed 15%Q].
Proof.
  destruct (crowding_branch_messages Q Exact (flat_profile 102 PT 4%Q)
              alert_insights)
    as (level & switch & Hout & _ & Hlevel & _ & Hswitch).
  - apply insert_non_empty.
  - rewrite Hout.
    destruct Hlevel as [[_ ->] | [(L & _) | (L & _)]];
      [| exfalso; vm_compute in L; discriminate L ..].
    destruct Hswitch as [(_ & _ & ->) | [N _]]; [reflexivity |].
    exfalso. apply N. split; reflexivity.
Defined.

(** The rules in binary64: the source's own example, and the two sides of
    the threshold 0.4, which the program compares with the float 0.4. *)
Example crowding_branch_messages_binary64 :
  generate_recommendations (flat_profile 102 PT (float_of_Z 4))
    (Some (insights_of (float_of_Q (85 # 100)) (float_of_Z 15)))
  = [Crowding_alert (float_of_Q (85 # 100)); Switches_observed (float_of_Z 15)]
  /\ generate_recommendations (flat_profile 102 PT (float_of_Z 4))
       (Some (insights_of (float_of_Q (4 # 10)) (float_of_Z 0)))
     = [Crowding_low (float_of_Q (4 # 10))]
  /\ generate_recommendations (flat_profile 102 PT (float_of_Z 4))
       (Some (insights_of 0x1.999999999999bp-2%float (float_of_Z 0)))
     = [Crowding_moderate 0x1.999999999999bp-2%float].
Proof. repeat split; vm_compute; reflexivity. Qed.

(** * Further properties of the code *)

(** ** More about the agents *)

Lemma crowding_impact_value (a : CommuterAgent Q) (c : Q) :
  crowding_impact a c = (Qmax 0 (c - crowding_tolerance a) * 2)%Q.
Proof. unfold crowding_impact. rewrite max_exact. reflexivity. Qed.

Lemma adjusted_pbc_pt_value (a : CommuterAgent Q) (c : Q) :
  adjusted_pbc_pt a c = Qmax 1 (pbc_pt a - crowding_impact a c * 3).
Proof. unfold adjusted_pbc_pt. rewrite max_exact. reflexivity. Qed.

Lemma adjusted_attitude_pt_value (a : CommuterAgent Q) (c : Q) :
  adjusted_attitude_pt a c
  = Qmax 1 (attitude_pt a - crowding_impact a c * 2).
Proof. unfold adjusted_attitude_pt. rewrite max_exact. reflexivity. Qed.

Lemma crowding_impact_nonneg (a : CommuterAgent Q) (c : Q) :
  (0 <= crowding_impact a c)%Q.
Proof.
  rewrite crowding_impact_value.
  pose proof (Q.le_max_l 0 (c - crowding_tolerance a)) as L.
  set (m := Qmax 0 (c - crowding_tolerance a)) in *. lra.
Qed.

Lemma crowding_impact_monotone (a : CommuterAgent Q) (c c' : Q) :
  (c' <= c)%Q -> (crowding_impact a c' <= crowding_impact a c)%Q.
Proof.
  intros L. rewrite !crowding_impact_value.
  assert (M : (Qmax 0 (c' - crowding_tolerance a)
               <= Qmax 0 (c - crowding_tolerance a))%Q)
    by (apply Q.max_le_compat_l; lra).
  set (m' := Qmax 0 (c' - crowding_tolerance a)) in *.
  set (m := Qmax 0 (c - crowding_tolerance a)) in *. lra.
Qed.

Lemma crowding_impact_below_tolerance (a : CommuterAgent Q) (c : Q) :
  (c <= crowding_tolerance a)%Q -> (crowding_impact a c == 0)%Q.
Proof.
  intros L. rewrite crowding_impact_value.
  rewrite Q.max_l by lra. reflexivity.
Qed.

(** X1. A rider who stays at some crowding stays at every lower crowding;
    put the other way round, a rider who switches keeps switching as the
    line gets more crowded. *)
Theorem decide_on_pt_monotone (self : CommuterAgent Q) (c c' : Q) :
  (c' <= c)%Q ->
  fst (decide_on_pt self c) = true ->
  fst (decide_on_pt self c') = true.
Proof.
  intros L Hstay.
  destruct (String.eqb_spec (usual_mode self) PT) as [Hm | Hm].
  2:{ rewrite decide_on_pt_not_rider in Hstay by exact Hm. discriminate. }
  destruct (fst (decide_on_pt self c')) eqn:E; [reflexivity | exfalso].
  apply (decide_on_pt_verdict self c' Hm) in E.
  assert (Hno : fst (decide_on_pt self c) = false); [| congruence].
  apply (decide_on_pt_verdict self c Hm).
  pose proof (crowding_impact_monotone self c c' L) as M.
  rewrite adjusted_pbc_pt_value, adjusted_attitude_pt_value in *.
  destruct E as [E | E]; [left | right];
    (eapply Qle_lt_trans; [| exact E]);
    apply Q.max_le_compat_l; lra.
Qed.

Lemma decide_on_pt_monotone_witness :
  fst (decide_on_pt sturdy_rider (1 # 2)%Q) = true.
Proof.
  apply (decide_on_pt_monotone sturdy_rider 1%Q (1 # 2)%Q);
    [discriminate | reflexivity].
Defined.

(** At or below the tolerance the verdict is that of the plain scores. *)
Lemma verdict_below_tolerance (self : CommuterAgent Q) (c : Q) :
  usual_mode self = PT ->
  (c <= crowding_tolerance self)%Q ->
  fst (decide_on_pt self c) = false
  <-> (pbc_pt self < 3)%Q \/ (attitude_pt self < 3)%Q.
Proof.
  intros Hm L.
  pose proof (decide_on_pt_verdict self c Hm) as Hv.
  pose proof (crowding_impact_below_tolerance self c L) as Hi.
  rewrite adjusted_pbc_pt_value, adjusted_attitude_pt_value in Hv.
  assert (Hp : (Qmax 1 (pbc_pt self - crowding_impact self c * 3) < 3
                <-> pbc_pt self < 3)%Q).
  { rewrite Q.max_lub_lt_iff. rewrite Hi. split; [intros [_ H]; lra |].
    intros H. split; [reflexivity | lra]. }
  assert (Ha : (Qmax 1 (attitude_pt self - crowding_impact self c * 2) < 3
                <-> attitude_pt self < 3)%Q).
  { rewrite Q.max_lub_lt_iff. rewrite Hi. split; [intros [_ H]; lra |].
    intros H. split; [reflexivity | lra]. }
  rewrite Hp, Ha in Hv. exact Hv.
Qed.

(** X2. Crowding at or below the tolerance has no effect: such a rider
    stays exactly when both scores are at least 3. *)
Theorem decide_on_pt_below_tolerance (self : CommuterAgent Q) (c : Q) :
  usual_mode self = PT ->
  (c <= crowding_tolerance self)%Q ->
  fst (decide_on_pt self c) = true
  <-> (3 <= pbc_pt self)%Q /\ (3 <= attitude_pt self)%Q.
Proof.
  intros Hm L.
  pose proof (verdict_below_tolerance self c Hm L) as Hv.
  split.
  - intros Hstay. split; apply Qnot_lt_le; intros H;
      (assert (fst (decide_on_pt self c) = false) by (apply Hv; auto));
      congruence.
  - intros [H1 H2]. apply not_false_iff_true. intros E.
    apply Hv in E. destruct E as [E | E]; lra.
Qed.

Lemma decide_on_pt_below_tolerance_witness :
  fst (decide_on_pt sturdy_rider (6 # 10)%Q) = true.
Proof.
  apply (decide_on_pt_below_tolerance sturdy_rider (6 # 10)%Q);
    [reflexivity | discriminate | split; discriminate].
Defined.

(** X3. Crowding only takes away from the scores, and never below 1: each
    adjusted score lies between 1 and the larger of 1 and the agent's own
    score.  So a usual rider whose PBC or attitude score is below 3 answers
    "switch" at every crowding. *)
Theorem adjusted_scores_bounds (self : CommuterAgent Q) (c : Q) :
  (1 <= adjusted_pbc_pt self c)%Q
  /\ (adjusted_pbc_pt self c <= Qmax 1 (pbc_pt self))%Q
  /\ (1 <= adjusted_attitude_pt self c)%Q
  /\ (adjusted_attitude_pt self c <= Qmax 1 (attitude_pt self))%Q
  /\ ((pbc_pt self < 3)%Q \/ (attitude_pt self < 3)%Q ->
      fst (decide_on_pt self c) = false).
Proof.
  pose proof (crowding_impact_nonneg self c) as Hi.
  rewrite adjusted_pbc_pt_value, adjusted_attitude_pt_value.
  assert (Hp : (Qmax 1 (pbc_pt self - crowding_impact self c * 3)
                <= Qmax 1 (pbc_pt self))%Q)
    by (apply Q.max_le_compat_l; lra).
  assert (Ha : (Qmax 1 (attitude_pt self - crowding_impact self c * 2)
                <= Qmax 1 (attitude_pt self))%Q)
    by (apply Q.max_le_compat_l; lra).
  split; [apply Q.le_max_l |]. split; [exact Hp |].
  split; [apply Q.le_max_l |]. split; [exact Ha |].
  intros Hlow.
  destruct (String.eqb_spec (usual_mode self) PT) as [Hm | Hm];
    [| now apply decide_on_pt_not_rider].
  apply (decide_on_pt_verdict self c Hm).
  rewrite adjusted_pbc_pt_value, adjusted_attitude_pt_value.
  destruct Hlow as [H | H]; [left | right];
    (eapply Qle_lt_trans; [eassumption |]);
    apply Q.max_lub_lt; [reflexivity | exact H | reflexivity | exact H].
Qed.

Lemma adjusted_scores_bounds_witness :
  fst (decide_on_pt timid_rider 0%Q) = false.
Proof.
  destruct (adjusted_scores_bounds timid_rider 0%Q) as (_ & _ & _ & _ & H).
  apply H. left. reflexivity.
Defined.

Lemma make_agents_tolerance (rows : list (CommuterRecord Q)) :
  forall s : random_state Q,
    unit_draws s ->
    List.Forall (fun a => (5 # 10 <= crowding_tolerance a)%Q
                          /\ (crowding_tolerance a < 9 # 10)%Q)
                (fst (make_agents rows s)).
Proof.
  induction rows as [| row rows IH]; intros s Hs; simpl; [constructor |].
  specialize (IH (fun k => s (S k)) (fun k => Hs (S k))).
  destruct (make_agents rows (fun k => s (S k))) as [agents s2].
  simpl in *. constructor; [| exact IH].
  simpl. destruct (Hs O) as [L U].
  change (@add Q Exact) with Qplus. change (@mul Q Exact) with Qmult.
  change (@sub Q Exact) with Qminus. simpl of_Q.
  split; lra.
Qed.

(** X4. Every agent the simulation builds gets a tolerance in [0.5, 0.9)
    when the draws of the random source lie in [0, 1); it starts in its
    usual mode, and carries the two Public Transport scores of its row. *)
Theorem agents_of_rows (rows : list (CommuterRecord Q)) (s : random_state Q) :
  unit_draws s ->
  List.Forall (fun a => (5 # 10 <= crowding_tolerance a)%Q
                        /\ (crowding_tolerance a < 9 # 10)%Q
                        /\ current_mode a = usual_mode a)
              (agents_of rows s)
  /\ List.map usual_mode (agents_of rows s) = List.map UsualCommuteMode rows
  /\ List.map id (agents_of rows s) = List.map CommuterID rows
  /\ List.map pbc_pt (agents_of rows s) = List.map PBC_PT_Score rows
  /\ List.map attitude_pt (agents_of rows s)
     = List.map Attitude_PT_Score rows.
Proof.
  intros Hs. unfold agents_of. split.
  - pose proof (make_agents_tolerance rows s Hs) as Ht.
    revert s Hs Ht. induction rows as [| row rows IH]; intros s Hs Ht;
      simpl in *; [constructor |].
    specialize (IH (fun k => s (S k)) (fun k => Hs (S k))).
    destruct (make_agents rows (fun k => s (S k))) as [agents s2].
    simpl in *. inversion Ht as [| a l [L U] Hrest]; subst.
    constructor; [simpl; auto | now apply IH].
  - clear Hs. revert s.
    induction rows as [| row rows IH]; intros s; simpl; [auto |].
    specialize (IH (fun k => s (S k))).
    destruct (make_agents rows (fun k => s (S k))) as [agents s2].
    simpl in *. destruct IH as (H1 & H2 & H3 & H4).
    rewrite H1, H2, H3, H4. auto.
Qed.

Lemma agents_of_rows_witness :
  List.Forall (fun a => (5 # 10 <= crowding_tolerance a)%Q
                        /\ (crowding_tolerance a < 9 # 10)%Q
                        /\ current_mode a = usual_mode a)
              (agents_of five_commuters quarter_Q).
Proof.
  assert (Hs : unit_draws quarter_Q)
    by (intros k; split; [discriminate | reflexivity]).
  exact (proj1 (agents_of_rows five_commuters quarter_Q Hs)).
Defined.

(** ** More about the simulation *)

Section SimulationLog.
Context {num : Type} `{PyNum num}.

Lemma switchers_le (x : num) (agents : list (CommuterAgent num)) :
  (switchers x agents <= length agents)%nat.
Proof. unfold switchers. apply List.filter_length_le. Qed.

Lemma respond_users (c : num) (agents : list (CommuterAgent num)) :
  forall r m, snd (respond c agents r m) = List.map (settle c) agents.
Proof.
  induction agents as [| a rest IH]; intros r m; simpl; [reflexivity |].
  pose proof (decide_on_pt_self a c) as Hself. unfold settle at 1.
  destruct (decide_on_pt a c) as [stays a1]. simpl in Hself. subst a1.
  destruct stays; simpl.
  - specialize (IH (r + 1) m).
    destruct (respond c rest (r + 1) m) as [[r' m'] rest']. simpl in *.
    now rewrite IH.
  - specialize (IH r (m + 1)).
    destruct (respond c rest r (m + 1)) as [[r' m'] rest']. simpl in *.
    now rewrite IH.
Qed.

Lemma settle_settle (x : num) (a : CommuterAgent num) :
  settle x (settle x a) = settle x a.
Proof.
  unfold settle. destruct (fst (decide_on_pt a x)) eqn:E.
  - now rewrite E.
  - rewrite decide_on_pt_mark_switched, E. reflexivity.
Qed.

(** The loop in full: what it prints and what it leaves of the agents. *)
Lemma sim_loop_log (steps : list Z) :
  forall st : sim_state num,
  let c := capacity (pt_line st) in
  let p := Z.of_nat (length (pt_users st)) in
  let x := crowding_of c p in
  let k := Z.of_nat (switchers x (pt_users st)) in
  exists st',
    sim_loop st steps = Ok st'
    /\ stdout st' = stdout st ++ flat_map (cycle_log c p k) steps
    /\ pt_users st' = match steps with
                      | [] => pt_users st
                      | _ :: _ => List.map (settle x) (pt_users st)
                      end.
Proof.
  induction steps as [| step steps IH]; intros st c p x k.
  - exists st. simpl. rewrite app_nil_r. auto.
  - pose proof (sim_step_effect st step) as Hstep. simpl in Hstep.
    fold c p x in Hstep.
    pose proof (respond_length x (pt_users st) 0 (mode_switches_total st))
      as Hlen.
    pose proof (respond_users x (pt_users st) 0 (mode_switches_total st))
      as Husers.
    destruct (respond_counts x (pt_users st) 0 (mode_switches_total st))
      as [Hcount Hkeep].
    destruct (respond x (pt_users st) 0 (mode_switches_total st))
      as [[after switches] users].
    simpl in Hlen, Hcount, Hkeep, Husers.
    inversion Hcount; subst after switches. clear Hcount.
    match type of Hstep with _ = Ok ?st1 =>
      destruct (IH st1) as (st' & Hrun & Hout & Hfinal)
    end.
    simpl in Hout, Hfinal. rewrite Hlen in Hout, Hfinal.
    fold c p x in Hout, Hfinal. rewrite Hkeep in Hout. fold k in Hout.
    exists st'. simpl sim_loop. rewrite Hstep, bind_Ok.
    split; [exact Hrun |]. split.
    + rewrite Hout. simpl flat_map. unfold cycle_log at 2.
      fold p k. replace (0 + p - k) with (p - k) by lia.
      rewrite <- !app_assoc. reflexivity.
    + rewrite Hfinal, Husers. destruct steps; [reflexivity |].
      rewrite List.map_map. apply List.map_ext. intros a.
      apply settle_settle.
Qed.
End SimulationLog.

Section SimulationOutcome.
Context {num : Type} `{PyNum num}.

Lemma flat_map_cycle_initial (c p k : Z) (steps : list Z) :
  initial_crowdings (flat_map (cycle_log (num := num) c p k) steps)
  = repeat (crowding_of c p) (length steps).
Proof.
  induction steps as [| step steps IH]; simpl; [reflexivity |].
  now rewrite IH.
Qed.

Lemma flat_map_cycle_final (c p k : Z) (steps : list Z) :
  final_crowdings (flat_map (cycle_log (num := num) c p k) steps)
  = repeat (crowding_of c (p - k)) (length steps).
Proof.
  induction steps as [| step steps IH]; simpl; [reflexivity |].
  now rewrite IH.
Qed.

(** The whole outcome of a run in closed form: it depends on the table and
    the random source only through the number [p] of usual riders and the
    number [k] of them that answer "switch" at the boarding crowding. *)
Lemma run_outcome (rows : list (CommuterRecord num)) (c n : Z)
    (s : random_state num) :
  let p := pt_count rows in
  let x := crowding_of c p in
  let k := Z.of_nat (switchers x (pt_users_of rows s)) in
  exists avg,
    average (repeat x (Z.to_nat n)) = Ok avg
    /\ run_crowding_simulation rows c n s
       = Ok {| insights :=
                 <["average_pt_crowding" := avg]>
                 (<["total_mode_switches_from_pt" := of_Z (Z.max 0 n * k)]>
                 (<["simulated_pt_capacity" := of_Z c]>
                 (<["num_sim_steps" := of_Z n]> ∅)));
               printed :=
                 [Banner c] ++ flat_map (cycle_log c p k) (range n)
                 ++ [SummaryCrowding avg; SummarySwitches (Z.max 0 n * k)] |}.
Proof.
  intros p x k.
  destruct (sim_loop_effect (range n) (sim_init rows c s))
    as (st & Hrun & _ & _ & _ & Hlevels & _ & Htotal).
  destruct (sim_loop_log (range n) (sim_init rows c s))
    as (st' & Hrun' & Hout & _).
  rewrite Hrun in Hrun'. injection Hrun' as <-.
  simpl in Hlevels, Htotal, Hout.
  rewrite make_agents_riders in Hlevels, Htotal, Hout.
  rewrite range_length in Hlevels, Htotal.
  fold p x in Hlevels, Htotal, Hout.
  change (List.filter is_pt_user (fst (make_agents rows s)))
    with (pt_users_of rows s) in Htotal, Hout.
  fold k in Htotal, Hout.
  replace (Z.of_nat (Z.to_nat n)) with (Z.max 0 n) in Htotal by lia.
  unfold run_crowding_simulation.
  rewrite Hrun, bind_Ok, Hlevels, Htotal, Hout.
  rewrite (average_value (repeat x (Z.to_nat n))), bind_Ok.
  eexists. split; reflexivity.
Qed.
End SimulationOutcome.

(** X5. In every arithmetic the switch counter of a run is the number of
    cycles (0 for a negative cycle count) times the number k of usual riders
    that answer "switch" at the boarding crowding: the riders board again
    in every cycle and a rider who switches is counted once per cycle.  So
    the counter lies between 0 and cycles times usual riders.  The result
    also echoes the capacity and the cycle count, and holds these four
    entries only. *)
Theorem switch_total (num : Type) (A : PyNum num)
    (rows : list (CommuterRecord num)) (c n : Z) (s : random_state num) :
  let k := Z.of_nat (switchers (crowding_of c (pt_count rows))
                               (pt_users_of rows s)) in
  exists out,
    run_crowding_simulation rows c n s = Ok out
    /\ insights out !! "total_mode_switches_from_pt"
       = Some (of_Z (Z.max 0 n * k))
    /\ 0 <= k <= pt_count rows
    /\ 0 <= Z.max 0 n * k <= Z.max 0 n * pt_count rows
    /\ insights out !! "simulated_pt_capacity" = Some (of_Z c)
    /\ insights out !! "num_sim_steps" = Some (of_Z n)
    /\ dom (insights out)
       = ({["average_pt_crowding"; "total_mode_switches_from_pt";
            "simulated_pt_capacity"; "num_sim_steps"]} : gset string).
Proof.
  intros k.
  destruct (run_outcome rows c n s) as (avg & _ & Hrun).
  fold k in Hrun.
  assert (Hk : 0 <= k <= pt_count rows).
  { pose proof (make_agents_riders rows s) as Hp.
    pose proof (switchers_le (crowding_of c (pt_count rows))
                             (pt_users_of rows s)) as Hle.
    unfold k. unfold pt_users_of, agents_of in *. lia. }
  eexists. split; [exact Hrun |]. simpl.
  split; [reflexivity |]. split; [exact Hk |].
  split; [nia |]. split; [reflexivity |]. split; [reflexivity |].
  rewrite !dom_insert_L, dom_empty_L. set_solver.
Qed.

(** X6. In every arithmetic a run prints the banner, then for each cycle,
    numbered from 1, the riders that board (all usual riders, every cycle)
    with the crowding they meet, and the riders that stay (the usual riders
    less the k that switch) with the crowding they leave; then the average
    and the switch counter.  A negative cycle count prints no cycle. *)
Theorem run_prints (num : Type) (A : PyNum num)
    (rows : list (CommuterRecord num)) (c n : Z) (s : random_state num) :
  let p := pt_count rows in
  let k := Z.of_nat (switchers (crowding_of c p) (pt_users_of rows s)) in
  exists out avg,
    run_crowding_simulation rows c n s = Ok out
    /\ insights out !! "average_pt_crowding" = Some avg
    /\ printed out
       = [Banner c] ++ flat_map (cycle_log c p k) (range n)
         ++ [SummaryCrowding avg; SummarySwitches (Z.max 0 n * k)]
    /\ List.map (fun step => step + 1) (range n)
       = List.map Z.of_nat (seq 1 (Z.to_nat n))
    /\ final_crowdings (printed out)
       = repeat (crowding_of c (p - k)) (Z.to_nat n).
Proof.
  intros p k.
  destruct (run_outcome rows c n s) as (avg & _ & Hrun).
  fold p k in Hrun.
  eexists. exists avg. split; [exact Hrun |]. simpl.
  split; [reflexivity |]. split; [reflexivity |]. split.
  - unfold range. rewrite List.map_map, <- List.seq_shift, List.map_map.
    apply List.map_ext. intros i. lia.
  - rewrite final_crowdings_app, flat_map_cycle_final, range_length. simpl.
    now rewrite app_nil_r.
Qed.

Lemma make_agents_prefix {num : Type} `{PyNum num}
    (rows : list (CommuterRecord num)) :
  forall s s' : random_state num,
    (forall i : nat, (i < length rows)%nat -> s i = s' i) ->
    fst (make_agents rows s) = fst (make_agents rows s').
Proof.
  induction rows as [| row rows IH]; intros s s' Hs; simpl; [reflexivity |].
  specialize (IH (fun k => s (S k)) (fun k => s' (S k))).
  rewrite (Hs O) by (simpl; lia).
  destruct (make_agents rows (fun k => s (S k))) as [agents s2].
  destruct (make_agents rows (fun k => s' (S k))) as [agents' s2'].
  simpl in *. f_equal. apply IH. intros i Hi. apply Hs. simpl. lia.
Qed.

(** X7. A run draws one random number per row of the table and no more: two
    random sources that agree on their first (number of rows) draws give the
    same outcome, whatever comes after. *)
Theorem run_uses_one_draw_per_row (num : Type) (A : PyNum num)
    (rows : list (CommuterRecord num)) (c n : Z) (s s' : random_state num) :
  (forall i : nat, (i < length rows)%nat -> s i = s' i) ->
  run_crowding_simulation rows c n s = run_crowding_simulation rows c n s'.
Proof.
  intros Hs. unfold run_crowding_simulation, sim_init.
  now rewrite (make_agents_prefix rows s s' Hs).
Qed.

Lemma run_uses_one_draw_per_row_witness :
  run_crowding_simulation five_commuters 3 1 quarter_Q
  = run_crowding_simulation five_commuters 3 1 quarter_then_half.
Proof.
  apply (run_uses_one_draw_per_row Q Exact five_commuters 3 1
           quarter_Q quarter_then_half).
  intros i Hi. unfold quarter_Q, quarter_then_half.
  destruct (Nat.ltb_spec i 5) as [_ | Hge]; [reflexivity |].
  simpl in Hi. lia.
Defined.

Lemma crowding_of_monotone (c r r' : Z) :
  0 <= c -> r <= r' ->
  (crowding_of (num := Q) c r <= crowding_of (num := Q) c r')%Q.
Proof.
  intros Hc Hr. unfold crowding_of.
  destruct (Z.eqb_spec c 0) as [E | NE]; [apply Qle_refl |].
  rewrite !min_exact. apply Q.min_le_compat_l.
  change (@of_Z Q Exact) with inject_Z. change (@div Q Exact) with Qdiv.
  assert (Qc : (0 < inject_Z c)%Q) by (rewrite <- (Zlt_Qlt 0); lia).
  assert (Qr : (inject_Z r <= inject_Z r')%Q) by (rewrite <- Zle_Qle; lia).
  apply Qle_shift_div_l; [exact Qc |].
  assert (E : (inject_Z r / inject_Z c * inject_Z c == inject_Z r)%Q)
    by (field; lra).
  rewrite E. exact Qr.
Qed.

Lemma crowding_of_full (c r : Z) :
  0 < c -> (crowding_of (num := Q) c r == 1)%Q <-> c <= r.
Proof.
  intros Hc. rewrite crowding_of_exact by lia.
  assert (Qc : (0 < inject_Z c)%Q) by (rewrite <- (Zlt_Qlt 0); lia).
  assert (E : (inject_Z r / inject_Z c * inject_Z c == inject_Z r)%Q)
    by (field; lra).
  split.
  - intros H1. destruct (Z.le_gt_cases c r) as [L | G]; [exact L | exfalso].
    assert (Qg : (inject_Z r < inject_Z c)%Q) by (rewrite <- Zlt_Qlt; lia).
    assert (Hlt : (inject_Z r / inject_Z c < 1)%Q)
      by (apply Qlt_shift_div_r; [exact Qc | lra]).
    rewrite Q.min_r in H1 by lra. lra.
  - intros L.
    assert (Ql : (inject_Z c <= inject_Z r)%Q) by (rewrite <- Zle_Qle; lia).
    assert (Hge : (1 <= inject_Z r / inject_Z c)%Q)
      by (apply Qle_shift_div_l; [exact Qc | lra]).
    rewrite Q.min_l by exact Hge. reflexivity.
Qed.

(** X8. On a line of positive capacity the crowding level grows with the
    number of riders and reaches 1 exactly when the riders fill the
    capacity; below that it is the plain ratio riders / capacity. *)
Theorem crowding_level_saturates (line line' : PublicTransportLine) :
  0 < capacity line ->
  capacity line' = capacity line ->
  current_riders line <= current_riders line' ->
  exists q q' : Q,
    get_crowding_level line = Ok q
    /\ get_crowding_level line' = Ok q'
    /\ (q <= q')%Q
    /\ ((q == 1)%Q <-> capacity line <= current_riders line)
    /\ (current_riders line <= capacity line ->
        (q == inject_Z (current_riders line) / inject_Z (capacity line))%Q).
Proof.
  intros Hc Hsame Hr. rewrite !get_crowding_level_value, Hsame.
  eexists. eexists. split; [reflexivity |]. split; [reflexivity |].
  split; [apply crowding_of_monotone; lia |].
  split; [now apply crowding_of_full |].
  intros Hle. rewrite crowding_of_exact by lia.
  assert (Qc : (0 < inject_Z (capacity line))%Q)
    by (rewrite <- (Zlt_Qlt 0); lia).
  assert (Ql : (inject_Z (current_riders line) <= inject_Z (capacity line))%Q)
    by (rewrite <- Zle_Qle; lia).
  apply Q.min_r. apply Qle_shift_div_r; [exact Qc | lra].
Qed.

Lemma crowding_level_saturates_witness :
  exists q q' : Q,
    get_crowding_level crowded_line = Ok q
    /\ get_crowding_level (add_rider crowded_line) = Ok q'
    /\ (q <= q')%Q.
Proof.
  destruct (crowding_level_saturates crowded_line (add_rider crowded_line))
    as (q & q' & H1 & H2 & H3 & _); [reflexivity | reflexivity | discriminate |].
  exists q, q'. auto.
Defined.

Lemma Forall2_repeat {A B : Type} (R : A -> B -> Prop) (a : A) (b : B)
    (n : nat) :
  R a b -> List.Forall2 R (repeat a n) (repeat b n).
Proof. intros HR. induction n; simpl; constructor; auto. Qed.

(** X9. The riders' response never adds crowding: in every cycle of a run
    on a line whose capacity is not negative, the crowding printed after the
    response is at most the crowding printed after boarding. *)
Theorem response_never_adds_crowding (rows : list (CommuterRecord Q))
    (c n : Z) (s : random_state Q) :
  0 <= c ->
  exists out,
    run_crowding_simulation rows c n s = Ok out
    /\ List.Forall2 Qle (final_crowdings (printed out))
                        (initial_crowdings (printed out)).
Proof.
  intros Hc. destruct (run_outcome rows c n s) as (avg & _ & Hrun).
  eexists. split; [exact Hrun |]. simpl.
  rewrite initial_crowdings_app, final_crowdings_app.
  rewrite flat_map_cycle_initial, flat_map_cycle_final. simpl.
  rewrite !app_nil_r. apply Forall2_repeat.
  apply crowding_of_monotone; lia.
Qed.

Lemma response_never_adds_crowding_witness :
  exists out,
    run_crowding_simulation five_commuters 3 2 quarter_Q = Ok out
    /\ List.Forall2 Qle (final_crowdings (printed out))
                        (initial_crowdings (printed out)).
Proof.
  apply (response_never_adds_crowding five_commuters 3 2 quarter_Q).
  discriminate.
Defined.

Lemma crowding_of_light (c p : Z) :
  0 < c -> 2 * p <= c -> (crowding_of (num := Q) c p <= 1 # 2)%Q.
Proof.
  intros Hc Hp. rewrite crowding_of_exact by lia.
  eapply Qle_trans; [apply Q.le_min_r |].
  assert (Qc : (0 < inject_Z c)%Q) by (rewrite <- (Zlt_Qlt 0); lia).
  assert (Qp : (inject_Z 2 * inject_Z p <= inject_Z c)%Q)
    by (rewrite <- inject_Z_mult, <- Zle_Qle; lia).
  change (inject_Z 2) with 2%Q in Qp.
  apply Qle_shift_div_r; [exact Qc | lra].
Qed.

(** Under a crowding of at most 0.5, which no sampled tolerance is below,
    the riders that switch are those with a low score. *)
Lemma switchers_light (x : Q) (rows : list (CommuterRecord Q)) :
  (x <= 1 # 2)%Q ->
  forall s : random_state Q,
    unit_draws s ->
    switchers x (pt_users_of rows s)
    = length (List.filter low_score_rider rows).
Proof.
  intros Hx. unfold pt_users_of, agents_of.
  induction rows as [| row rows IH]; intros s Hs; [reflexivity |].
  simpl. specialize (IH (fun k => s (S k)) (fun k => Hs (S k))).
  destruct (make_agents rows (fun k => s (S k))) as [agents s2].
  simpl in *. unfold is_pt_user at 1, low_score_rider at 1. simpl.
  destruct (String.eqb_spec (UsualCommuteMode row) PT) as [Hm | Hm];
    simpl; [| exact IH].
  unfold switchers in *. simpl.
  match goal with
  | |- context [decide_on_pt ?a x] => set (agent := a) in *
  end.
  assert (Hneg : negb (fst (decide_on_pt agent x))
                 = Qltb (PBC_PT_Score row) 3
                   || Qltb (Attitude_PT_Score row) 3).
  { assert (Ht : (x <= crowding_tolerance agent)%Q).
    { unfold agent. simpl.
      change (@add Q Exact) with Qplus. change (@mul Q Exact) with Qmult.
      change (@sub Q Exact) with Qminus. simpl of_Q.
      destruct (Hs O) as [L _]. lra. }
    pose proof (verdict_below_tolerance agent x Hm Ht) as Hv.
    simpl in Hv.
    destruct (fst (decide_on_pt agent x)); simpl.
    - destruct Hv as [_ Hv].
      destruct (Qltb (PBC_PT_Score row) 3) eqn:E1.
      + apply Qltb_lt in E1. discriminate (Hv (or_introl E1)).
      + destruct (Qltb (Attitude_PT_Score row) 3) eqn:E2; [| reflexivity].
        apply Qltb_lt in E2. discriminate (Hv (or_intror E2)).
    - destruct Hv as [Hv _]. destruct (Hv eq_refl) as [H1 | H2].
      + apply Qltb_lt in H1. now rewrite H1.
      + apply Qltb_lt in H2. now rewrite H2, orb_true_r. }
  rewrite Hneg.
  destruct (Qltb (PBC_PT_Score row) 3 || Qltb (Attitude_PT_Score row) 3);
    simpl; now rewrite IH.
Qed.

(** X10. On a lightly loaded line (at most half of the capacity taken by
    the usual riders) and with tolerances drawn as [random.uniform] draws
    them, crowding makes nobody switch: the switch counter is the number of
    cycles times the number of usual riders whose own PBC or attitude score
    is below 3. *)
Theorem light_load_switches (rows : list (CommuterRecord Q)) (c n : Z)
    (s : random_state Q) :
  unit_draws s ->
  0 < c ->
  2 * pt_count rows <= c ->
  exists out,
    run_crowding_simulation rows c n s = Ok out
    /\ insights out !! "total_mode_switches_from_pt"
       = Some (inject_Z (Z.max 0 n
                         * Z.of_nat (length (List.filter low_score_rider rows)))).
Proof.
  intros Hs Hc Hp. destruct (run_outcome rows c n s) as (avg & _ & Hrun).
  rewrite (switchers_light _ rows (crowding_of_light c _ Hc Hp) s Hs) in Hrun.
  eexists. split; [exact Hrun | reflexivity].
Qed.

Lemma light_load_switches_witness :
  exists out,
    run_crowding_simulation five_commuters 10 5 quarter_Q = Ok out
    /\ insights out !! "total_mode_switches_from_pt" = Some 0%Q.
Proof.
  assert (Hs : unit_draws quarter_Q)
    by (intros k; split; [discriminate | reflexivity]).
  exact (light_load_switches five_commuters 10 5 quarter_Q Hs
                             eq_refl ltac:(discriminate)).
Defined.

Lemma Forall2_map_r {A B : Type} (R : A -> B -> Prop) (f : A -> B)
    (l : list A) :
  (forall a, R a (f a)) -> List.Forall2 R l (List.map f l).
Proof. intros HR. induction l; simpl; constructor; auto. Qed.

(** X11. The simulation changes one thing in an agent: after at least one
    cycle, the current mode of every usual rider that answers "switch" at
    the boarding crowding is "Alternative"; the current mode of the others,
    and the id, usual mode, scores and tolerance of all of them, are as they
    were built.  The number and the order of the usual riders stay too. *)
Theorem agents_after_the_cycles (num : Type) (A : PyNum num)
    (rows : list (CommuterRecord num)) (c n : Z) (s : random_state num) :
  0 < n ->
  let x := crowding_of c (pt_count rows) in
  exists st,
    sim_loop (sim_init rows c s) (range n) = Ok st
    /\ List.Forall2
         (fun a a' =>
            id a' = id a
            /\ usual_mode a' = usual_mode a
            /\ attitude_pt a' = attitude_pt a
            /\ pbc_pt a' = pbc_pt a
            /\ crowding_tolerance a' = crowding_tolerance a
            /\ current_mode a'
               = if fst (decide_on_pt a x) then current_mode a
                 else "Alternative")
         (pt_users_of rows s) (pt_users st).
Proof.
  intros Hn x.
  destruct (sim_loop_log (range n) (sim_init rows c s))
    as (st & Hrun & _ & Husers).
  simpl in Husers. rewrite make_agents_riders in Husers. fold x in Husers.
  exists st. split; [exact Hrun |].
  assert (Hne : range n <> []).
  { intros E. apply (f_equal (@length Z)) in E.
    rewrite range_length in E. simpl in E. lia. }
  destruct (range n) as [| step steps]; [contradiction |].
  rewrite Husers. apply Forall2_map_r. intros a. unfold settle.
  destruct (fst (decide_on_pt a x)); simpl; auto 10.
Qed.

Lemma agents_after_the_cycles_witness :
  exists st,
    sim_loop (sim_init five_commuters 3 quarter_Q) (range 1) = Ok st
    /\ List.map current_mode (pt_users st)
       = ["Alternative"; "Alternative"; "Alternative"].
Proof.
  destruct (agents_after_the_cycles Q Exact five_commuters 3 1 quarter_Q
                                    eq_refl)
    as (st & Hrun & Hall).
  exists st. split; [exact Hrun |].
  vm_compute in Hrun. injection Hrun as <-. reflexivity.
Defined.

Lemma apply_ops_riders (ops : list line_op) :
  forall line : PublicTransportLine,
    0 <= current_riders line ->
    0 <= current_riders (apply_ops ops line)
         <= current_riders line + adds ops
    /\ capacity (apply_ops ops line) = capacity line
    /\ name (apply_ops ops line) = name line.
Proof.
  unfold apply_ops, adds.
  induction ops as [| op ops IH]; intros line Hr; simpl.
  - repeat split; lia.
  - assert (Hop : 0 <= current_riders (apply_op line op)
                  /\ current_riders (apply_op line op)
                     <= current_riders line
                        + (match op with Add => 1 | _ => 0 end)
                  /\ capacity (apply_op line op) = capacity line
                  /\ name (apply_op line op) = name line).
    { destruct op; simpl; repeat split; try lia;
        destruct (Z.ltb_spec 0 (current_riders line - 1)); lia. }
    destruct Hop as (H0 & H1 & H2 & H3).
    destruct (IH (apply_op line op) H0) as (I0 & I1 & I2).
    rewrite I1, I2, H2, H3. repeat split; try lia.
    destruct op; simpl in *; lia.
Qed.

(** X12. Whatever sequence of [add_rider], [remove_rider] and
    [reset_riders] is applied to a line whose rider count is not negative,
    the count stays non-negative and at most the starting count plus the
    number of [add_rider] calls, the capacity and the name are untouched,
    and, when the capacity is not negative either, the crowding level of the
    resulting line is in [0,1]. *)
Theorem line_operations_keep_the_line_sound (ops : list line_op)
    (line : PublicTransportLine) :
  0 <= current_riders line ->
  0 <= current_riders (apply_ops ops line) <= current_riders line + adds ops
  /\ capacity (apply_ops ops line) = capacity line
  /\ name (apply_ops ops line) = name line
  /\ (0 <= capacity line ->
      exists q : Q,
        get_crowding_level (apply_ops ops line) = Ok q
        /\ (0 <= q)%Q /\ (q <= 1)%Q).
Proof.
  intros Hr. destruct (apply_ops_riders ops line Hr) as (H0 & H1 & H2).
  split; [exact H0 |]. split; [exact H1 |]. split; [exact H2 |].
  intros Hc. rewrite get_crowding_level_value. eexists.
  split; [reflexivity |]. apply crowding_of_bounds; lia.
Qed.

Lemma line_operations_keep_the_line_sound_witness :
  current_riders
    (apply_ops [Remove; Remove; Add; Reset; Remove; Add]
               (PublicTransportLine_init "Main PT Line" 3)) = 1.
Proof.
  destruct (line_operations_keep_the_line_sound
              [Remove; Remove; Add; Reset; Remove; Add]
              (PublicTransportLine_init "Main PT Line" 3))
    as (_ & _ & _ & _); [discriminate | reflexivity].
Defined.

(** ** More about the recommendations *)

Lemma strictly_increasing_sorted (l : list nat) :
  strictly_increasing l = true -> StronglySorted Nat.lt l.
Proof.
  induction l as [| x l IH]; intros H; [constructor |].
  simpl in H. destruct l as [| y l'].
  - constructor; constructor.
  - apply andb_true_iff in H. destruct H as [Hxy Hrest].
    apply Nat.ltb_lt in Hxy. specialize (IH Hrest).
    constructor; [exact IH |].
    constructor; [exact Hxy |].
    apply StronglySorted_inv in IH. destruct IH as [_ Hall].
    eapply List.Forall_impl; [| exact Hall]. intros z Hz. simpl in Hz. lia.
Qed.

Ltac split_tests :=
  repeat match goal with
         | |- context [if ?b then _ else _] =>
             match type of b with bool => destruct b end
         end.

Lemma strictly_increasing_snoc (l : list nat) (x : nat) :
  strictly_increasing l = true ->
  List.Forall (fun y => (y < x)%nat) l ->
  strictly_increasing (l ++ [x]) = true.
Proof.
  induction l as [| y l IH]; intros Hs Hall; [reflexivity |].
  inversion Hall as [| ? ? Hy Hrest]; subst.
  simpl in *. destruct l as [| z l'].
  - simpl. apply andb_true_iff. split; [now apply Nat.ltb_lt | reflexivity].
  - apply andb_true_iff in Hs. destruct Hs as [Hyz Hs].
    simpl app. apply andb_true_iff. split; [exact Hyz |].
    apply IH; assumption.
Qed.

Section RuleOrder.
Context {num : Type} `{PyNum num}.

Lemma tpb_rules_order (user_profile : CommuterRecord num) :
  strictly_increasing (List.map rank (tpb_rules user_profile)) = true
  /\ List.Forall (fun y => (y < 8)%nat)
                 (List.map rank (tpb_rules user_profile))
  /\ (length (tpb_rules user_profile) <= 6)%nat.
Proof.
  unfold tpb_rules, walkcycle_rules, car_rules, pt_rules, append_if.
  split_tests; simpl; repeat split; try reflexivity; try lia;
    repeat constructor.
Qed.

(** The crowding rules append nothing, a level message, or a level message
    and the switch message. *)
Lemma crowding_rules_shape (user_profile : CommuterRecord num)
    (crowding_insights : option (gmap string num))
    (l : list (recommendation num)) :
  exists extra,
    crowding_rules user_profile crowding_insights l = l ++ extra
    /\ (List.map rank extra = [] \/ List.map rank extra = [8%nat]
        \/ List.map rank extra = [8%nat; 9%nat]).
Proof.
  unfold crowding_rules, append_if.
  destruct crowding_insights as [d |];
    [| exists []; rewrite app_nil_r; auto].
  split_tests;
    try (eexists; split; [rewrite <- app_assoc; reflexivity | simpl; auto]);
    try (eexists; split; [reflexivity | simpl; auto]);
    exists []; rewrite app_nil_r; auto.
Qed.

Lemma generate_in_order (user_profile : CommuterRecord num)
    (crowding_insights : option (gmap string num)) :
  strictly_increasing
    (List.map rank (generate_recommendations user_profile crowding_insights))
  = true
  /\ (1 <= length (generate_recommendations user_profile crowding_insights)
      <= 8)%nat.
Proof.
  destruct (tpb_rules_order user_profile) as (Hs & Hall & Hlen).
  destruct (crowding_rules_shape user_profile crowding_insights
                                 (tpb_rules user_profile))
    as (extra & Hrules & Hextra).
  unfold generate_recommendations, rule_recommendations.
  fold (tpb_rules user_profile). rewrite Hrules.
  assert (Hsorted : strictly_increasing
                      (List.map rank (tpb_rules user_profile ++ extra))
                    = true
                    /\ (length (tpb_rules user_profile ++ extra) <= 8)%nat).
  { rewrite List.map_app, length_app.
    rewrite <- (List.length_map rank extra).
    destruct Hextra as [-> | [-> | ->]].
    - rewrite app_nil_r. simpl. split; [exact Hs | lia].
    - split; [| simpl; lia]. apply strictly_increasing_snoc; [exact Hs |].
      eapply List.Forall_impl; [| exact Hall]. simpl. intros; lia.
    - split; [| simpl; lia].
      change [8%nat; 9%nat] with ([8%nat] ++ [9%nat]). rewrite app_assoc.
      apply strictly_increasing_snoc.
      + apply strictly_increasing_snoc; [exact Hs |].
        eapply List.Forall_impl; [| exact Hall]. simpl. intros; lia.
      + apply List.Forall_app. split; [| repeat constructor].
        eapply List.Forall_impl; [| exact Hall]. simpl. intros; lia. }
  destruct Hsorted as [Hso Hle].
  destruct (tpb_rules user_profile ++ extra) as [| r rs] eqn:E.
  - simpl. split; [reflexivity | lia].
  - split; [exact Hso | simpl in *; lia].
Qed.
End RuleOrder.

(** X13. In every arithmetic the messages come in the fixed order of the
    rules (Public Transport, Car, Walk/Cycle, crowding level, switches,
    fallback) and none comes twice: their places in that order increase
    strictly.  The list holds at least 1 and at most 8 messages. *)
Theorem recommendations_in_order (num : Type) (A : PyNum num)
    (user_profile : CommuterRecord num)
    (crowding_insights : option (gmap string num)) :
  let out := generate_recommendations user_profile crowding_insights in
  StronglySorted Nat.lt (List.map rank out)
  /\ NoDup (List.map rank out)
  /\ (1 <= length out <= 8)%nat.
Proof.
  intros out.
  destruct (generate_in_order user_profile crowding_insights) as [Hs Hl].
  apply strictly_increasing_sorted in Hs. fold out in Hs, Hl.
  split; [exact Hs |]. split; [| exact Hl].
  apply NoDup_ListNoDup.
  induction Hs as [| x l _ IH Hall]; constructor; [| exact IH].
  intros Hin. rewrite List.Forall_forall in Hall.
  specialize (Hall x Hin). lia.
Qed.

Lemma in_snoc {A : Type} (l : list A) (x y : A) :
  In y (l ++ [x]) <-> In y l \/ y = x.
Proof.
  rewrite List.in_app_iff. simpl. intuition.
Qed.

Lemma in_append_if {num : Type} (c : bool) (x y : recommendation num)
    (l : list (recommendation num)) :
  In y (append_if c x l) <-> In y l \/ (c = true /\ y = x).
Proof.
  unfold append_if. destruct c.
  - rewrite in_snoc. intuition.
  - intuition. discriminate.
Qed.

Lemma Qleb_ge (x y : Q) : Qle_bool x y = false <-> (y < x)%Q.
Proof.
  split.
  - intros E. apply Qnot_le_lt. intros L. apply Qle_bool_iff in L. congruence.
  - intros L. destruct (Qle_bool x y) eqn:E; [| reflexivity].
    apply Qle_bool_iff in E. exfalso. apply (Qlt_not_le _ _ L E).
Qed.

Section RuleConditions.
Variable user_profile : CommuterRecord Q.
Variable r : recommendation Q.

Lemma in_pt_rules (l : list (recommendation Q)) :
  In r (pt_rules user_profile l)
  <-> In r l
      \/ (r = PT_negative_attitude
          /\ (Intention_PT_Score user_profile < 4)%Q
          /\ (Attitude_PT_Score user_profile < 4)%Q)
      \/ (r = PT_low_subjective_norm
          /\ (Intention_PT_Score user_profile < 4)%Q
          /\ (SN_PT_Score user_profile < 4)%Q)
      \/ (r = PT_low_control
          /\ (Intention_PT_Score user_profile < 4)%Q
          /\ (PBC_PT_Score user_profile < 4)%Q)
      \/ (r = PT_strong_intention
          /\ (5 <= Intention_PT_Score user_profile)%Q).
Proof.
  unfold pt_rules.
  change (@ltb Q Exact) with Qltb. change (@leb Q Exact) with Qle_bool.
  change (@of_Z Q Exact 4) with 4%Q. change (@of_Z Q Exact 5) with 5%Q.
  destruct (Qltb (Intention_PT_Score user_profile) 4) eqn:E4;
    [apply Qltb_lt in E4 | apply Qltb_ge in E4].
  - rewrite !in_append_if, !Qltb_lt. intuition lra.
  - destruct (Qle_bool 5 (Intention_PT_Score user_profile)) eqn:E5;
      [apply Qle_bool_iff in E5 | apply Qleb_ge in E5].
    + rewrite in_snoc. intuition lra.
    + intuition lra.
Qed.

Lemma in_car_rules (l : list (recommendation Q)) :
  In r (car_rules user_profile l)
  <-> In r l
      \/ (r = Car_strong_preference
          /\ (5 <= Intention_Car_Score user_profile)%Q
          /\ (5 <= Attitude_Car_Score user_profile)%Q
          /\ (5 <= PBC_Car_Score user_profile)%Q)
      \/ (r = Car_low_subjective_norm
          /\ (5 <= Intention_Car_Score user_profile)%Q
          /\ (SN_Car_Score user_profile < 4)%Q).
Proof.
  unfold car_rules.
  change (@ltb Q Exact) with Qltb. change (@leb Q Exact) with Qle_bool.
  change (@of_Z Q Exact 4) with 4%Q. change (@of_Z Q Exact 5) with 5%Q.
  destruct (Qle_bool 5 (Intention_Car_Score user_profile)) eqn:E5;
    [apply Qle_bool_iff in E5 | apply Qleb_ge in E5].
  - rewrite !in_append_if, andb_true_iff, !Qle_bool_iff, Qltb_lt.
    intuition lra.
  - intuition lra.
Qed.

Lemma in_walkcycle_rules (l : list (recommendation Q)) :
  In r (walkcycle_rules user_profile l)
  <-> In r l
      \/ (r = WalkCycle_challenges
          /\ (5 <= Intention_WalkCycle_Score user_profile)%Q
          /\ (PBC_WalkCycle_Score user_profile < 4)%Q)
      \/ (r = WalkCycle_encouraged
          /\ (5 <= Intention_WalkCycle_Score user_profile)%Q
          /\ (4 <= PBC_WalkCycle_Score user_profile)%Q).
Proof.
  unfold walkcycle_rules.
  change (@ltb Q Exact) with Qltb. change (@leb Q Exact) with Qle_bool.
  change (@of_Z Q Exact 4) with 4%Q. change (@of_Z Q Exact 5) with 5%Q.
  destruct (Qle_bool 5 (Intention_WalkCycle_Score user_profile)) eqn:E5;
    [apply Qle_bool_iff in E5 | apply Qleb_ge in E5].
  - destruct (Qltb (PBC_WalkCycle_Score user_profile) 4) eqn:E4;
      [apply Qltb_lt in E4 | apply Qltb_ge in E4];
      rewrite in_snoc; intuition lra.
  - intuition lra.
Qed.
End RuleConditions.

Lemma in_tpb_rules (user_profile : CommuterRecord Q)
    (r : recommendation Q) :
  In r (tpb_rules user_profile)
  <-> (r = PT_negative_attitude
       /\ (Intention_PT_Score user_profile < 4)%Q
       /\ (Attitude_PT_Score user_profile < 4)%Q)
      \/ (r = PT_low_subjective_norm
          /\ (Intention_PT_Score user_profile < 4)%Q
          /\ (SN_PT_Score user_profile < 4)%Q)
      \/ (r = PT_low_control
          /\ (Intention_PT_Score user_profile < 4)%Q
          /\ (PBC_PT_Score user_profile < 4)%Q)
      \/ (r = PT_strong_intention
          /\ (5 <= Intention_PT_Score user_profile)%Q)
      \/ (r = Car_strong_preference
          /\ (5 <= Intention_Car_Score user_profile)%Q
          /\ (5 <= Attitude_Car_Score user_profile)%Q
          /\ (5 <= PBC_Car_Score user_profile)%Q)
      \/ (r = Car_low_subjective_norm
          /\ (5 <= Intention_Car_Score user_profile)%Q
          /\ (SN_Car_Score user_profile < 4)%Q)
      \/ (r = WalkCycle_challenges
          /\ (5 <= Intention_WalkCycle_Score user_profile)%Q
          /\ (PBC_WalkCycle_Score user_profile < 4)%Q)
      \/ (r = WalkCycle_encouraged
          /\ (5 <= Intention_WalkCycle_Score user_profile)%Q
          /\ (4 <= PBC_WalkCycle_Score user_profile)%Q).
Proof.
  unfold tpb_rules.
  rewrite in_walkcycle_rules, in_car_rules, in_pt_rules. simpl In.
  tauto.
Qed.

Lemma in_generate_tpb {num : Type} `{PyNum num}
    (user_profile : CommuterRecord num)
    (crowding_insights : option (gmap string num))
    (r : recommendation num) :
  (rank r < 8)%nat ->
  In r (generate_recommendations user_profile crowding_insights)
  <-> In r (tpb_rules user_profile).
Proof.
  intros Hr.
  destruct (crowding_rules_shape user_profile crowding_insights
                                 (tpb_rules user_profile))
    as (extra & Hrules & Hextra).
  assert (Hnot : ~ In r extra).
  { intros Hin. apply (List.in_map rank) in Hin.
    destruct Hextra as [E | [E | E]]; rewrite E in Hin; simpl in Hin; lia. }
  unfold generate_recommendations, rule_recommendations.
  fold (tpb_rules user_profile). rewrite Hrules.
  destruct (tpb_rules user_profile ++ extra) as [| r0 rs] eqn:E.
  - apply List.app_eq_nil in E. destruct E as [-> ->]. simpl.
    split; [intros [<- | []]; simpl in Hr; lia | intros []].
  - rewrite <- E, List.in_app_iff. tauto.
Qed.

(** X14. Each of the eight attitude, norm and control messages is in the
    result exactly when its rule applies, whatever the insights:
    the three low-score Public Transport messages need a PT intention below
    4 and the score in question below 4, the PT encouragement an intention
    of at least 5; the car messages an intention of at least 5 with both
    attitude and PBC at least 5, respectively a subjective norm below 4;
    the Walk/Cycle messages an intention of at least 5 with a PBC below 4,
    respectively at least 4. *)
Theorem rules_fire_on_their_conditions (user_profile : CommuterRecord Q)
    (crowding_insights : option (gmap string Q)) :
  let out := generate_recommendations user_profile crowding_insights in
  (In PT_negative_attitude out
   <-> (Intention_PT_Score user_profile < 4)%Q
       /\ (Attitude_PT_Score user_profile < 4)%Q)
  /\ (In PT_low_subjective_norm out
      <-> (Intention_PT_Score user_profile < 4)%Q
          /\ (SN_PT_Score user_profile < 4)%Q)
  /\ (In PT_low_control out
      <-> (Intention_PT_Score user_profile < 4)%Q
          /\ (PBC_PT_Score user_profile < 4)%Q)
  /\ (In PT_strong_intention out
      <-> (5 <= Intention_PT_Score user_profile)%Q)
  /\ (In Car_strong_preference out
      <-> (5 <= Intention_Car_Score user_profile)%Q
          /\ (5 <= Attitude_Car_Score user_profile)%Q
          /\ (5 <= PBC_Car_Score user_profile)%Q)
  /\ (In Car_low_subjective_norm out
      <-> (5 <= Intention_Car_Score user_profile)%Q
          /\ (SN_Car_Score user_profile < 4)%Q)
  /\ (In WalkCycle_challenges out
      <-> (5 <= Intention_WalkCycle_Score user_profile)%Q
          /\ (PBC_WalkCycle_Score user_profile < 4)%Q)
  /\ (In WalkCycle_encouraged out
      <-> (5 <= Intention_WalkCycle_Score user_profile)%Q
          /\ (4 <= PBC_WalkCycle_Score user_profile)%Q).
Proof.
  intros out. unfold out.
  repeat match goal with |- _ /\ _ => split end;
    (rewrite in_generate_tpb by (simpl; lia));
    rewrite in_tpb_rules;
    (split;
     [ intros Hx;
       repeat (destruct Hx as [Hx | Hx];
               [try (destruct Hx as [Hx _]; discriminate Hx) |]);
       try (destruct Hx as [Hx _]; discriminate Hx); tauto
     | intros Hx; tauto ]).
Qed.

(** X15. In every arithmetic the recommendations depend on ten scores of
    the profile, on its usual mode, and on two entries of the insights (and
    on whether the insights hold any entry): two profiles and two insights
    that agree on these give the same messages.  The commuter id, the
    Walk/Cycle attitude and subjective norm, and the capacity and step count
    of the insights are never read. *)
Theorem recommendations_read_only (num : Type) (A : PyNum num)
    (p p' : CommuterRecord num) (d d' : gmap string num) :
  UsualCommuteMode p = UsualCommuteMode p' ->
  Intention_PT_Score p = Intention_PT_Score p' ->
  Attitude_PT_Score p = Attitude_PT_Score p' ->
  SN_PT_Score p = SN_PT_Score p' ->
  PBC_PT_Score p = PBC_PT_Score p' ->
  Intention_Car_Score p = Intention_Car_Score p' ->
  Attitude_Car_Score p = Attitude_Car_Score p' ->
  PBC_Car_Score p = PBC_Car_Score p' ->
  SN_Car_Score p = SN_Car_Score p' ->
  Intention_WalkCycle_Score p = Intention_WalkCycle_Score p' ->
  PBC_WalkCycle_Score p = PBC_WalkCycle_Score p' ->
  (d = ∅ <-> d' = ∅) ->
  d !! "average_pt_crowding" = d' !! "average_pt_crowding" ->
  d !! "total_mode_switches_from_pt" = d' !! "total_mode_switches_from_pt" ->
  generate_recommendations p None = generate_recommendations p' None
  /\ generate_recommendations p (Some d)
     = generate_recommendations p' (Some d').
Proof.
  intros Hm H1 H2 H3 H4 H5 H6 H7 H8 H9 H10 He Ha Hs.
  assert (Ht : truthy d = truthy d').
  { unfold truthy. destruct (decide (d = ∅)) as [E | NE].
    - rewrite !bool_decide_eq_true_2; tauto.
    - rewrite !bool_decide_eq_false_2; tauto. }
  unfold generate_recommendations, rule_recommendations, crowding_rules,
    walkcycle_rules, car_rules, pt_rules, get0.
  rewrite Hm, H1, H2, H3, H4, H5, H6, H7, H8, H9, H10, Ht, Ha, Hs.
  split; reflexivity.
Qed.

Lemma recommendations_read_only_witness :
  generate_recommendations (flat_profile 102 PT 4%Q) (Some alert_insights)
  = generate_recommendations other_profile (Some full_insights).
Proof.
  apply (recommendations_read_only Q Exact (flat_profile 102 PT 4%Q)
           other_profile alert_insights full_insights);
    try reflexivity.
  split; intros E; exfalso; revert E; apply insert_non_empty.
Defined.

(** X16. What a run hands over is what the rules read.  In every
    arithmetic, when the insights of a run are passed on, the
    recommendations are the attitude, norm and control messages, then
    exactly one crowding message, chosen by comparing the average the run
    returned (the average of one boarding crowding per cycle) with 0.7 and
    then with 0.4, then the switch message if the switch total of the run is
    above 0 and the profile's usual mode is Public Transport.  The fallback
    message never shows. *)
Theorem simulation_feeds_recommendations (num : Type) (A : PyNum num)
    (rows : list (CommuterRecord num)) (c n : Z) (s : random_state num)
    (user_profile : CommuterRecord num) :
  let p := pt_count rows in
  let total :=
    Z.max 0 n
    * Z.of_nat (switchers (crowding_of c p) (pt_users_of rows s)) in
  exists out avg,
    run_crowding_simulation rows c n s = Ok out
    /\ average (repeat (crowding_of c p) (Z.to_nat n)) = Ok avg
    /\ insights out !! "average_pt_crowding" = Some avg
    /\ insights out !! "total_mode_switches_from_pt" = Some (of_Z total)
    /\ generate_recommendations user_profile (Some (insights out))
       = tpb_rules user_profile
         ++ (if ltb (of_Q (7 # 10)) avg then Crowding_alert avg
             else if ltb (of_Q (4 # 10)) avg then Crowding_moderate avg
             else Crowding_low avg)
         :: (if ltb (of_Z 0) (of_Z total)
                && String.eqb (UsualCommuteMode user_profile) PT
             then [Switches_observed (of_Z total)] else [])
    /\ ~ In Balanced_view
            (generate_recommendations user_profile (Some (insights out))).
Proof.
  intros p total.
  destruct (run_outcome rows c n s) as (avg & Havg & Hrun).
  fold p in Havg, Hrun. fold total in Hrun.
  eexists. exists avg.
  split; [exact Hrun |]. split; [exact Havg |]. simpl insights.
  set (d := <["average_pt_crowding" := avg]> _).
  assert (La : d !! "average_pt_crowding" = Some avg)
    by (unfold d; by simplify_map_eq).
  assert (Ls : d !! "total_mode_switches_from_pt" = Some (of_Z total))
    by (unfold d; by simplify_map_eq).
  assert (Hne : d <> ∅) by (unfold d; apply insert_non_empty).
  split; [exact La |]. split; [exact Ls |].
  pose proof (crowding_rules_some user_profile d (tpb_rules user_profile) Hne)
    as Hrules.
  cbv zeta in Hrules. unfold get0 in Hrules. rewrite La, Ls in Hrules.
  simpl default in Hrules.
  assert (Hout : generate_recommendations user_profile (Some d)
                 = tpb_rules user_profile
                   ++ (if ltb (of_Q (7 # 10)) avg then Crowding_alert avg
                       else if ltb (of_Q (4 # 10)) avg
                            then Crowding_moderate avg
                            else Crowding_low avg)
                   :: (if ltb (of_Z 0) (of_Z total)
                          && String.eqb (UsualCommuteMode user_profile) PT
                       then [Switches_observed (of_Z total)] else [])).
  { unfold generate_recommendations, rule_recommendations.
    fold (tpb_rules user_profile). rewrite Hrules.
    destruct (tpb_rules user_profile); reflexivity. }
  split; [exact Hout |].
  rewrite Hout. intros Hin. apply List.in_app_iff in Hin.
  destruct (tpb_rules_kinds user_profile) as (_ & _ & Hf).
  destruct Hin as [Hin | [Hin | Hin]].
  - assert (Hin' : In Balanced_view
                      (List.filter is_fallback (tpb_rules user_profile)))
      by (apply List.filter_In; auto).
    rewrite Hf in Hin'. exact Hin'.
  - destruct (ltb (of_Q (7 # 10)) avg);
      [| destruct (ltb (of_Q (4 # 10)) avg)]; discriminate Hin.
  - destruct (ltb (of_Z 0) (of_Z total)
              && String.eqb (UsualCommuteMode user_profile) PT);
      [destruct Hin as [Hin | []]; discriminate Hin | destruct Hin].
Qed.

(** The average is the rounded one: with two usual riders, capacity 5 and
    3 cycles the program's average is 0.4000000000000001 and the message is
    the moderate one, where exact numbers give 2/5 and the low one. *)
Example rounded_average_chooses_the_message :
  (exists out,
      run_crowding_simulation two_riders 5 3 quarter_float = Ok out
      /\ generate_recommendations (flat_profile 102 PT (float_of_Z 4))
                                  (Some (insights out))
         = [Crowding_moderate 0x1.999999999999bp-2%float])
  /\ (exists out,
        run_crowding_simulation two_riders 5 3 quarter_Q = Ok out
        /\ generate_recommendations (flat_profile 102 PT 4%Q)
                                    (Some (insights out))
           = [Crowding_low (150 # 375)%Q]).
Proof.
  split; eexists; (split; [vm_compute; reflexivity |]);
    vm_compute; reflexivity.
Qed.

(** ** The profile lookup *)

Lemma filter_first {A : Type} (f : A -> bool) (l : list A) (x : A)
    (rest : list A) :
  List.filter f l = x :: rest ->
  exists before after,
    l = before ++ x :: after
    /\ f x = true
    /\ List.Forall (fun y => f y = false) before.
Proof.
  induction l as [| y l IH]; simpl; [discriminate |].
  destruct (f y) eqn:E.
  - intros Hx. injection Hx as -> _. exists [], l. auto.
  - intros Hx. destruct (IH Hx) as (before & after & -> & Hf & Hb).
    exists (y :: before), after. auto.
Qed.

(** X17. The profile lookup returns the first row of the table that carries
    the id asked for, and fails with IndexError exactly when no row carries
    it: it never returns a row with another id, a row from outside the
    table, or a default profile. *)
Theorem get_commuter_profile_first_match (num : Type) (commuter_id : Z)
    (df : list (CommuterRecord num)) :
  (forall profile,
      get_commuter_profile commuter_id df = inl profile
      <-> exists before after,
            df = before ++ profile :: after
            /\ CommuterID profile = commuter_id
            /\ List.Forall (fun row => CommuterID row <> commuter_id) before)
  /\ (get_commuter_profile commuter_id df = inr IndexError
      <-> ~ In commuter_id (List.map CommuterID df)).
Proof.
  unfold get_commuter_profile. split.
  - intros profile. split.
    + destruct (List.filter _ df) as [| row rest] eqn:E; [discriminate |].
      intros Hp. injection Hp as ->.
      destruct (filter_first _ df profile rest E)
        as (before & after & Hdf & Hid & Hb).
      exists before, after. split; [exact Hdf |].
      split; [now apply Z.eqb_eq |].
      eapply List.Forall_impl; [| exact Hb]. intros row Hrow.
      now apply Z.eqb_neq.
    + intros (before & after & -> & Hid & Hb).
      rewrite List.filter_app.
      replace (List.filter (fun row => CommuterID row =? commuter_id) before)
        with (@nil (CommuterRecord num)).
      * simpl. apply Z.eqb_eq in Hid. now rewrite Hid.
      * symmetry. induction Hb as [| row before Hrow _ IH]; [reflexivity |].
        simpl. apply Z.eqb_neq in Hrow. now rewrite Hrow.
  - destruct (List.filter _ df) as [| row rest] eqn:E.
    + split; [| reflexivity]. intros _ Hin.
      apply List.in_map_iff in Hin. destruct Hin as (row & Hid & Hin).
      assert (Hf : In row (List.filter
                             (fun row => CommuterID row =? commuter_id) df))
        by (apply List.filter_In; split; [exact Hin | now apply Z.eqb_eq]).
      rewrite E in Hf. exact Hf.
    + split; [discriminate |]. intros Hno. exfalso. apply Hno.
      assert (Hf : In row (List.filter
                             (fun row => CommuterID row =? commuter_id) df))
        by (rewrite E; left; reflexivity).
      apply List.filter_In in Hf. destruct Hf as [Hin Hid].
      apply List.in_map_iff. exists row. split; [now apply Z.eqb_eq | exact Hin].
Qed.

(** X18. When the ids of the table are unique, looking up the id of any row
    of the table gives back that very row. *)
Theorem get_commuter_profile_round_trip (num : Type)
    (df : list (CommuterRecord num)) (profile : CommuterRecord num) :
  List.NoDup (List.map CommuterID df) ->
  In profile df ->
  get_commuter_profile (CommuterID profile) df = inl profile.
Proof.
  intros Hnd Hin. unfold get_commuter_profile.
  induction df as [| row df IH]; [destruct Hin |].
  simpl in Hnd. inversion Hnd as [| ? ? Hnotin Hnd']; subst.
  simpl. destruct Hin as [-> | Hin].
  - now rewrite Z.eqb_refl.
  - destruct (Z.eqb_spec (CommuterID row) (CommuterID profile)) as [E | NE].
    + exfalso. apply Hnotin. rewrite E. now apply List.in_map.
    + now apply IH.
Qed.

Lemma get_commuter_profile_round_trip_witness :
  get_commuter_profile 3 (five_commuters (num := Q))
  = inl (commuter 3 PT 6 5).
Proof.
  apply (get_commuter_profile_round_trip Q five_commuters
           (commuter 3 PT 6 5)).
  - repeat constructor; simpl; intuition discriminate.
  - simpl. auto.
Defined.

(** ** The chatbot *)

Section ChatbotFacts.
Import ChatbotLogic.

Lemma converse_history (calls : list (string * service)) (self : Chatbot) :
  conversation_history (converse calls self)
  = conversation_history self ++ flat_map exchange (answered calls self).
Proof.
  revert self. induction calls as [| [user_message g] calls IH]; intros self.
  - simpl. now rewrite app_nil_r.
  - unfold converse in *. simpl fold_left. rewrite IH. simpl answered.
    unfold get_chat_response. simpl fst; simpl snd.
    destruct (g (request self user_message default_system_prompt))
      as [chat_response | e]; simpl.
    + now rewrite <- app_assoc.
    + reflexivity.
Qed.

Lemma answered_length (calls : list (string * service)) (self : Chatbot) :
  (length (answered calls self) <= length calls)%nat.
Proof.
  revert self. induction calls as [| [user_message g] calls IH]; intros self.
  - simpl. lia.
  - simpl. destruct (g _); simpl.
    + specialize (IH (snd (get_chat_response g self user_message
                                              default_system_prompt))).
      unfold get_chat_response in *. lia.
    + specialize (IH self). lia.
Qed.

Lemma answered_sublist (calls : list (string * service)) (self : Chatbot) :
  sublist (List.map fst (answered calls self)) (List.map fst calls).
Proof.
  revert self. induction calls as [| [user_message g] calls IH]; intros self.
  - simpl. constructor.
  - simpl. destruct (g _); simpl.
    + apply sublist_skip, IH.
    + apply sublist_cons, IH.
Qed.

Lemma answered_all_fail (calls : list (string * service)) (self : Chatbot) :
  List.Forall (fun call => forall req, exists e, snd call req = Failure e)
              calls ->
  answered calls self = [].
Proof.
  revert self. induction calls as [| [user_message g] calls IH];
    intros self Hall; [reflexivity |].
  inversion Hall as [| ? ? Hg Hrest]; subst. simpl in Hg. simpl.
  destruct (Hg (request self user_message default_system_prompt)) as [e ->].
  now apply IH.
Qed.

Lemma flat_map_exchange_length (done : list (string * string)) :
  length (flat_map exchange done) = (2 * length done)%nat.
Proof.
  induction done as [| ur done IH]; simpl; [reflexivity | lia].
Qed.

Lemma flat_map_exchange_roles (done : list (string * string)) :
  List.map role (flat_map exchange done)
  = List.concat (repeat ["user"; "assistant"] (length done)).
Proof.
  induction done as [| ur done IH]; simpl; [reflexivity | now rewrite IH].
Qed.

Lemma flat_map_to_api (done : list (string * string)) :
  flat_map to_api (flat_map exchange done)
  = flat_map (fun ur => [{| api_role := "user"; parts := [fst ur] |};
                         {| api_role := "model"; parts := [snd ur] |}]) done.
Proof.
  induction done as [| ur done IH]; simpl; [reflexivity | now rewrite IH].
Qed.
End ChatbotFacts.

(** X19. After any conversation that starts from a new chatbot, the stored
    history is exactly the answered exchanges in order, each as the user's
    original message followed by the reply: two entries per answered call,
    roles alternating user and assistant, the messages a subsequence of
    those sent.  A call that the service fails leaves no entry, so a
    conversation in which every call fails leaves the history empty. *)
Theorem history_is_the_answered_exchanges
    (calls : list (string * ChatbotLogic.service)) :
  let h := ChatbotLogic.conversation_history
             (ChatbotLogic.converse calls ChatbotLogic.Chatbot_init) in
  let done := ChatbotLogic.answered calls ChatbotLogic.Chatbot_init in
  h = flat_map ChatbotLogic.exchange done
  /\ length h = (2 * length done)%nat
  /\ (length done <= length calls)%nat
  /\ List.map ChatbotLogic.role h
     = List.concat (repeat ["user"; "assistant"] (length done))
  /\ sublist (List.map fst done) (List.map fst calls)
  /\ (List.Forall
        (fun call => forall req, exists e,
             snd call req = ChatbotLogic.Failure e) calls ->
      h = []).
Proof.
  intros h done.
  assert (Hh : h = flat_map ChatbotLogic.exchange done)
    by (unfold h; rewrite converse_history; reflexivity).
  split; [exact Hh |].
  split; [rewrite Hh; apply flat_map_exchange_length |].
  split; [apply answered_length |].
  split; [rewrite Hh; apply flat_map_exchange_roles |].
  split; [apply answered_sublist |].
  intros Hall. rewrite Hh. unfold done.
  now rewrite (answered_all_fail calls _ Hall).
Qed.

(** X20. The request of a call made after any conversation re-sends every
    answered exchange, the user's earlier messages as they were typed (role
    user) and the replies under the role model, and ends with the new
    message marked "User: ".  The system prompt is part of the request only
    while no exchange has been answered; the request has one message more
    than the history has entries. *)
Theorem request_after_a_conversation
    (calls : list (string * ChatbotLogic.service))
    (user_message system_prompt : string) :
  let self := ChatbotLogic.converse calls ChatbotLogic.Chatbot_init in
  let done := ChatbotLogic.answered calls ChatbotLogic.Chatbot_init in
  ChatbotLogic.request self user_message system_prompt
  = flat_map (fun ur =>
                [{| ChatbotLogic.api_role := "user";
                    ChatbotLogic.parts := [fst ur] |};
                 {| ChatbotLogic.api_role := "model";
                    ChatbotLogic.parts := [snd ur] |}]) done
    ++ [{| ChatbotLogic.api_role := "user";
           ChatbotLogic.parts :=
             [match done with
              | [] => system_prompt ++ ChatbotLogic.nl ++ ChatbotLogic.nl
                      ++ "User: " ++ user_message
              | _ :: _ => "User: " ++ user_message
              end%string] |}]
  /\ length (ChatbotLogic.request self user_message system_prompt)
     = (2 * length done + 1)%nat.
Proof.
  intros self done.
  assert (Hh : ChatbotLogic.conversation_history self
               = flat_map ChatbotLogic.exchange done)
    by (unfold self; rewrite converse_history; reflexivity).
  assert (Hreq : ChatbotLogic.request self user_message system_prompt
                 = flat_map (fun ur =>
                     [{| ChatbotLogic.api_role := "user";
                         ChatbotLogic.parts := [fst ur] |};
                      {| ChatbotLogic.api_role := "model";
                         ChatbotLogic.parts := [snd ur] |}]) done
                   ++ [{| ChatbotLogic.api_role := "user";
                          ChatbotLogic.parts :=
                            [match done with
                             | [] => system_prompt ++ ChatbotLogic.nl
                                     ++ ChatbotLogic.nl
                                     ++ "User: " ++ user_message
                             | _ :: _ => "User: " ++ user_message
                             end%string] |}]).
  { unfold ChatbotLogic.request. rewrite Hh, flat_map_to_api.
    destruct done as [| ur done']; reflexivity. }
  split; [exact Hreq |].
  rewrite Hreq, length_app. simpl length.
  assert (Hlen : forall l : list (string * string),
             length (flat_map (fun ur =>
                       [{| ChatbotLogic.api_role := "user";
                           ChatbotLogic.parts := [fst ur] |};
                        {| ChatbotLogic.api_role := "model";
                           ChatbotLogic.parts := [snd ur] |}]) l)
             = (2 * length l)%nat)
    by (induction l as [| ur l IH]; simpl; [reflexivity | lia]).
  rewrite Hlen. reflexivity.
Qed.

(** ** The script *)

Lemma get_commuter_profile_In {num : Type} (i : Z)
    (df : list (CommuterRecord num)) (profile : CommuterRecord num) :
  get_commuter_profile i df = inl profile ->
  In profile df /\ CommuterID profile = i.
Proof.
  unfold get_commuter_profile.
  destruct (List.filter _ df) as [| row rest] eqn:E; [discriminate |].
  intros Hp. injection Hp as ->.
  assert (Hf : In profile (List.filter (fun row => CommuterID row =? i) df))
    by (rewrite E; left; reflexivity).
  apply List.filter_In in Hf. destruct Hf as [Hin Hid].
  split; [exact Hin | now apply Z.eqb_eq].
Qed.

Lemma get_commuter_profile_present {num : Type} (i : Z)
    (df : list (CommuterRecord num)) :
  In i (List.map CommuterID df) ->
  exists profile, get_commuter_profile i df = inl profile.
Proof.
  intros Hin. apply List.in_map_iff in Hin. destruct Hin as (row & Hid & Hin).
  unfold get_commuter_profile.
  assert (Hf : In row (List.filter (fun row => CommuterID row =? i) df))
    by (apply List.filter_In; split; [exact Hin | now apply Z.eqb_eq]).
  destruct (List.filter _ df) as [| first rest]; [destruct Hf |].
  now exists first.
Qed.

Section ScriptFacts.
Import ChatbotLogic App.
Context {num : Type} `{PyNum num}.
Variable lower : string -> string.
Variable render : recommendation num -> string.

(** Under the script's configuration the simulation returns. *)
Lemma simulation_returns (df : list (CommuterRecord num))
    (s : random_state num) :
  exists out,
    run_crowding_simulation df DEFAULT_PT_CAPACITY NUM_SIM_STEPS s = Ok out
    /\ insights out <> ∅
    /\ insights out !! "simulated_pt_capacity" = Some (of_Z DEFAULT_PT_CAPACITY)
    /\ insights out !! "num_sim_steps" = Some (of_Z NUM_SIM_STEPS).
Proof.
  destruct (run_outcome df DEFAULT_PT_CAPACITY NUM_SIM_STEPS s)
    as (avg & _ & Hrun).
  eexists. split; [exact Hrun |]. simpl insights.
  split; [apply insert_non_empty |].
  split; by simplify_map_eq.
Qed.

(** Insights that are not empty give a crowding level message. *)
Lemma crowding_level_present (profile : CommuterRecord num)
    (d : gmap string num) :
  d <> ∅ ->
  existsb is_crowding_level (generate_recommendations profile (Some d))
  = true.
Proof.
  intros Hne.
  assert (Hex : existsb is_crowding_level
                  (rule_recommendations profile (Some d)) = true).
  { unfold rule_recommendations, crowding_rules.
    rewrite (truthy_nonempty d Hne). unfold append_if.
    repeat match goal with
           | |- context [if ?c then _ else _] => destruct c
           end;
      repeat rewrite existsb_app; simpl;
      repeat rewrite orb_true_r; reflexivity. }
  unfold generate_recommendations.
  destruct (rule_recommendations profile (Some d)); [discriminate | exact Hex].
Qed.

Lemma handle_prompt_frame (g : service) (prompt : option string)
    (st : session_state num) :
  commuter_profile (handle_prompt lower render g prompt st)
  = commuter_profile st
  /\ crowding_insights (handle_prompt lower render g prompt st)
     = crowding_insights st.
Proof.
  destruct prompt as [[| c p] |]; simpl; auto.
  destruct (reply_to _ _ _ _ _); auto.
Qed.

Lemma select_profile_coherent (df : list (CommuterRecord num))
    (sel : option Z) (st : session_state num) (s : random_state num) :
  coherent df st ->
  coherent df (fst (fst (select_profile df sel (st, s)))).
Proof.
  intros Hst. unfold select_profile.
  destruct df as [| row df']; [exact Hst |].
  destruct sel as [i |].
  - destruct (load_condition (Some i) st); [| exact Hst].
    destruct (get_commuter_profile i (row :: df')) as [profile | e] eqn:E;
      [| exact Hst].
    destruct (simulation_returns (row :: df') s)
      as (out & -> & Hne & Hc & Hn).
    destruct (get_commuter_profile_In _ _ _ E) as [Hin _].
    unfold coherent. simpl. auto.
  - destruct (clear_condition None st); [| exact Hst].
    unfold coherent. simpl. exact I.
Qed.

Lemma rerun_coherent (df : list (CommuterRecord num))
    (w : session_state num * random_state num) (i : interaction) :
  coherent df (fst w) -> coherent df (fst (rerun lower render df w i)).
Proof.
  destruct w as [st s]. intros Hst. unfold rerun.
  pose proof (select_profile_coherent df (selected i) st s Hst) as Hsel.
  destruct (select_profile df (selected i) (st, s)) as [[st1 s1] [e |]];
    simpl in *; [exact Hsel |].
  destruct (handle_prompt_frame (answers i) (typed i) st1) as [Hp Hi].
  unfold coherent in *. now rewrite Hp, Hi.
Qed.

Lemma reruns_coherent (df : list (CommuterRecord num))
    (l : list interaction) (w : session_state num * random_state num) :
  coherent df (fst w) ->
  coherent df (fst (fold_left (rerun lower render df) l w)).
Proof.
  revert w. induction l as [| i l IH]; intros w Hw; [exact Hw |].
  simpl. apply IH, rerun_coherent, Hw.
Qed.

(** A selection is settled when the selection step has nothing to do. *)
Lemma select_profile_settled (df : list (CommuterRecord num))
    (sel : option Z) (st : session_state num) (s : random_state num) :
  df = []
  \/ match sel with
     | Some j =>
         j = 0
         \/ (exists p, commuter_profile st = Some p /\ CommuterID p = j)
         \/ (exists e, get_commuter_profile j df = inr e)
     | None => commuter_profile st = None
     end ->
  fst (select_profile df sel (st, s)) = (st, s).
Proof.
  intros Hset. unfold select_profile.
  destruct df as [| row df']; [reflexivity |].
  destruct Hset as [Hnil | Hset]; [discriminate |].
  destruct sel as [j |].
  - destruct (load_condition (Some j) st) eqn:Hload; [| reflexivity].
    destruct Hset as [-> | [(p & Hp & Hid) | (e & ->)]].
    + unfold load_condition in Hload. simpl in Hload.
      destruct (commuter_profile st); discriminate.
    + unfold load_condition in Hload. rewrite Hp in Hload.
      apply Z.eqb_eq in Hid. rewrite Hid in Hload. simpl in Hload.
      rewrite andb_false_r in Hload. discriminate.
    + reflexivity.
  - unfold clear_condition. now rewrite Hset.
Qed.

Lemma select_profile_settles (df : list (CommuterRecord num))
    (sel : option Z) (st : session_state num) (s : random_state num) :
  let st1 := fst (fst (select_profile df sel (st, s))) in
  df = []
  \/ match sel with
     | Some j =>
         j = 0
         \/ (exists p, commuter_profile st1 = Some p /\ CommuterID p = j)
         \/ (exists e, get_commuter_profile j df = inr e)
     | None => commuter_profile st1 = None
     end.
Proof.
  unfold select_profile.
  destruct df as [| row df']; [left; reflexivity | right].
  destruct sel as [j |].
  - destruct (load_condition (Some j) st) eqn:Hload.
    + destruct (get_commuter_profile j (row :: df')) as [profile | e] eqn:E.
      * destruct (get_commuter_profile_In _ _ _ E) as [_ Hid].
        right; left. exists profile.
        destruct (run_crowding_simulation _ _ _ _); simpl; auto.
      * right; right. now exists e.
    + simpl. unfold load_condition in Hload. simpl in Hload.
      destruct (Z.eqb_spec j 0) as [-> | Hj]; [left; reflexivity |].
      right; left. simpl in Hload.
      destruct (commuter_profile st) as [p |]; [| discriminate].
      exists p. split; [reflexivity |].
      simpl in Hload. apply negb_false_iff in Hload. now apply Z.eqb_eq.
  - unfold clear_condition.
    destruct (commuter_profile st) eqn:Hp; simpl; [reflexivity | exact Hp].
Qed.

Lemma get_chat_response_cases (g : service) (self : Chatbot)
    (user_message system_prompt : string) :
  let (r, bot) := get_chat_response g self user_message system_prompt in
  bot = self
  \/ conversation_history bot
     = conversation_history self
       ++ [{| role := "user"; content := user_message |};
           {| role := "assistant"; content := r |}].
Proof.
  unfold get_chat_response.
  destruct (g _); [right; reflexivity | left; reflexivity].
Qed.

Lemma reply_to_cases (g : service) (prompt : string)
    (st : session_state num) :
  let (r, bot) := reply_to lower render g prompt st in
  bot = chatbot st
  \/ conversation_history bot
     = conversation_history (chatbot st)
       ++ [{| role := "user"; content := prompt |};
           {| role := "assistant"; content := r |}].
Proof.
  unfold reply_to.
  destruct (commuter_profile st) as [profile |].
  - destruct (asks_for_recommendations lower prompt);
      [left; reflexivity | apply get_chat_response_cases].
  - destruct (negb (contains "profile" (lower prompt)));
      [apply get_chat_response_cases | left; reflexivity].
Qed.

(** What one rerun does to the two lists of messages. *)
Lemma rerun_messages (df : list (CommuterRecord num))
    (w : session_state num * random_state num) (i : interaction) :
  let st := fst w in
  let st' := fst (rerun lower render df w i) in
  exists shown kept,
    messages st' = messages st ++ shown
    /\ conversation_history (chatbot st')
       = conversation_history (chatbot st) ++ kept
    /\ sublist kept shown.
Proof.
  destruct w as [st s]. simpl fst. unfold rerun.
  assert (Hsel : exists shown,
             messages (fst (fst (select_profile df (selected i) (st, s))))
             = messages st ++ shown
             /\ chatbot (fst (fst (select_profile df (selected i) (st, s))))
                = chatbot st).
  { unfold select_profile. destruct df as [| row df'].
    - exists []. simpl. now rewrite app_nil_r.
    - destruct (selected i) as [j |].
      + destruct (load_condition (Some j) st);
          [| exists []; simpl; now rewrite app_nil_r].
        destruct (get_commuter_profile j (row :: df'));
          [| exists []; simpl; now rewrite app_nil_r].
        destruct (run_crowding_simulation _ _ _ _); simpl; eauto.
      + destruct (clear_condition None st); simpl; eauto.
        exists []. now rewrite app_nil_r. }
  destruct Hsel as (shown & Hm & Hc).
  destruct (select_profile df (selected i) (st, s)) as [[st1 s1] [e |]];
    simpl in Hm, Hc; simpl fst.
  - exists shown, []. rewrite Hm, Hc, app_nil_r.
    split; [reflexivity |]. split; [reflexivity | apply sublist_nil_l].
  - unfold handle_prompt.
    destruct (typed i) as [[| c p] |].
    + exists shown, []. rewrite Hm, Hc, app_nil_r.
      split; [reflexivity |]. split; [reflexivity | apply sublist_nil_l].
    + pose proof (reply_to_cases (answers i) (String c p) st1) as Hr.
      destruct (reply_to lower render (answers i) (String c p) st1)
        as [r bot].
      simpl. rewrite Hm, <- Hc.
      destruct Hr as [-> | ->].
      * exists (shown ++ [{| role := "user"; content := String c p |};
                          {| role := "assistant"; content := r |}]), [].
        rewrite app_nil_r, <- app_assoc.
        split; [reflexivity |]. split; [reflexivity | apply sublist_nil_l].
      * exists (shown ++ [{| role := "user"; content := String c p |};
                          {| role := "assistant"; content := r |}]),
               [{| role := "user"; content := String c p |};
                {| role := "assistant"; content := r |}].
        rewrite <- app_assoc.
        split; [reflexivity |]. split; [reflexivity |].
        apply sublist_inserts_l. reflexivity.
    + exists shown, []. rewrite Hm, Hc, app_nil_r.
      split; [reflexivity |]. split; [reflexivity | apply sublist_nil_l].
Qed.

Lemma reruns_messages (df : list (CommuterRecord num))
    (l : list interaction) (w : session_state num * random_state num) :
  let st := fst w in
  let st' := fst (fold_left (rerun lower render df) l w) in
  exists shown kept,
    messages st' = messages st ++ shown
    /\ conversation_history (chatbot st')
       = conversation_history (chatbot st) ++ kept
    /\ sublist kept shown.
Proof.
  revert w. induction l as [| i l IH]; intros w; simpl.
  - exists [], []. rewrite !app_nil_r.
    split; [reflexivity |]. split; [reflexivity | constructor].
  - destruct (IH (rerun lower render df w i)) as (shown2 & kept2 & Hm2 & Hc2 & Hs2).
    destruct (rerun_messages df w i) as (shown1 & kept1 & Hm1 & Hc1 & Hs1).
    simpl in Hm1, Hc1, Hm2, Hc2.
    exists (shown1 ++ shown2), (kept1 ++ kept2).
    rewrite Hm2, Hc2, Hm1, Hc1, <- !app_assoc.
    split; [reflexivity |]. split; [reflexivity |].
    now apply sublist_app.
Qed.
End ScriptFacts.


(** X22. Selecting an id of the table: when the id is 0, or the profile in
    the session already has this id, the step changes nothing (so the
    commuter with id 0 can never be loaded); otherwise it raises nothing,
    stores the first row with this id and the insights of a fresh run with
    capacity 10 and 5 cycles, appends the one message that names the id, and
    leaves the chatbot as it was; the random source is left where the draws
    of the agents end. *)
Theorem selection_loads_the_selected_profile (num : Type) (A : PyNum num)
    (commuter_df : list (CommuterRecord num)) (i : Z)
    (st : App.session_state num) (s : random_state num) :
  In i (List.map CommuterID commuter_df) ->
  let same := match App.commuter_profile st with
              | Some p => CommuterID p =? i
              | None => false
              end in
  if (i =? 0) || same
  then App.select_profile commuter_df (Some i) (st, s) = (st, s, None)
  else exists profile out,
      get_commuter_profile i commuter_df = inl profile
      /\ CommuterID profile = i
      /\ run_crowding_simulation commuter_df 10 5 s = Ok out
      /\ App.select_profile commuter_df (Some i) (st, s)
         = ({| App.messages := App.messages st ++ [App.loaded_message i];
               App.commuter_profile := Some profile;
               App.crowding_insights := Some (insights out);
               App.chatbot := App.chatbot st |},
            snd (make_agents commuter_df s), None).
Proof.
  intros Hin same.
  destruct (get_commuter_profile_present i commuter_df Hin) as [profile E].
  destruct (get_commuter_profile_In _ _ _ E) as [_ Hid].
  destruct (simulation_returns commuter_df s) as (out & Hrun & _).
  assert (Hload : App.load_condition (Some i) st = negb ((i =? 0) || same)).
  { unfold App.load_condition, same. simpl.
    destruct (i =? 0); simpl; [reflexivity |].
    destruct (App.commuter_profile st); simpl; [| reflexivity].
    reflexivity. }
  unfold App.select_profile.
  destruct commuter_df as [| row df']; [destruct Hin |].
  rewrite Hload.
  destruct ((i =? 0) || same); simpl; [reflexivity |].
  exists profile, out. rewrite E, Hrun.
  split; [reflexivity |]. split; [exact Hid |].
  split; [exact Hrun | reflexivity].
Qed.

Lemma selection_loads_the_selected_profile_witness :
  exists profile out,
    get_commuter_profile 3 (five_commuters (num := Q)) = inl profile
    /\ CommuterID profile = 3
    /\ run_crowding_simulation five_commuters 10 5 quarter_Q = Ok out
    /\ App.select_profile five_commuters (Some 3) (App.initial, quarter_Q)
       = ({| App.messages := [App.loaded_message 3];
             App.commuter_profile := Some profile;
             App.crowding_insights := Some (insights out);
             App.chatbot := ChatbotLogic.Chatbot_init |},
          snd (make_agents five_commuters quarter_Q), None).
Proof.
  apply (selection_loads_the_selected_profile Q Exact five_commuters 3
           App.initial quarter_Q).
  simpl. auto.
Defined.

(** X23. A rerun with the selection of the rerun before it and nothing
    typed leaves the session and the random source as they are: the profile
    is not loaded again, the simulation is not run again, and no message is
    added. *)
Theorem rerun_with_the_same_selection (num : Type) (A : PyNum num)
    (lower : string -> string) (render : recommendation num -> string)
    (commuter_df : list (CommuterRecord num))
    (w : App.session_state num * random_state num)
    (i : App.interaction) (g : ChatbotLogic.service) :
  App.rerun lower render commuter_df
    (App.rerun lower render commuter_df w i)
    {| App.selected := App.selected i; App.typed := None;
       App.answers := g |}
  = App.rerun lower render commuter_df w i.
Proof.
  destruct w as [st s].
  assert (Hset : let st1 := fst (App.rerun lower render commuter_df (st, s) i) in
            commuter_df = []
            \/ match App.selected i with
               | Some j =>
                   j = 0
                   \/ (exists p, App.commuter_profile st1 = Some p
                                 /\ CommuterID p = j)
                   \/ (exists e, get_commuter_profile j commuter_df = inr e)
               | None => App.commuter_profile st1 = None
               end).
  { pose proof (select_profile_settles commuter_df (App.selected i) st s)
      as Hs.
    unfold App.rerun.
    destruct (App.select_profile commuter_df (App.selected i) (st, s))
      as [[st1 s1] [e |]]; simpl in *; [exact Hs |].
    destruct (handle_prompt_frame lower render (App.answers i)
                (App.typed i) st1) as [Hp _].
    now rewrite Hp. }
  destruct (App.rerun lower render commuter_df (st, s) i) as [st1 s1].
  simpl in Hset.
  pose proof (select_profile_settled commuter_df (App.selected i) st1 s1 Hset)
    as Hfix.
  unfold App.rerun at 1. simpl App.selected.
  destruct (App.select_profile commuter_df (App.selected i) (st1, s1))
    as [[st2 s2] [e |]]; simpl in Hfix; injection Hfix as -> ->; reflexivity.
Qed.

(** X24. A prompt that asks for recommendations while a profile is loaded,
    and a prompt that mentions "profile" while none is, are answered by the
    script alone: the session after it is the same however the service would
    have answered, the chatbot and its history are untouched, and exactly
    the prompt and the script's reply are appended to the messages. *)
Theorem keyword_prompts_stay_in_the_script (num : Type) (A : PyNum num)
    (lower : string -> string) (render : recommendation num -> string)
    (g g' : ChatbotLogic.service) (prompt : string)
    (st : App.session_state num) :
  prompt <> EmptyString ->
  match App.commuter_profile st with
  | Some _ => App.asks_for_recommendations lower prompt = true
  | None => App.contains "profile" (lower prompt) = true
  end ->
  App.handle_prompt lower render g (Some prompt) st
  = App.handle_prompt lower render g' (Some prompt) st
  /\ App.chatbot (App.handle_prompt lower render g (Some prompt) st)
     = App.chatbot st
  /\ App.messages (App.handle_prompt lower render g (Some prompt) st)
     = App.messages st
       ++ [{| ChatbotLogic.role := "user";
              ChatbotLogic.content := prompt |};
           {| ChatbotLogic.role := "assistant";
              ChatbotLogic.content :=
                match App.commuter_profile st with
                | Some profile =>
                    App.recommendations_reply render profile
                      (App.crowding_insights st)
                | None => App.select_hint
                end |}].
Proof.
  intros Hne Hkey. unfold App.handle_prompt.
  destruct prompt as [| c p]; [now destruct Hne |].
  unfold App.reply_to.
  destruct (App.commuter_profile st) as [profile |]; rewrite Hkey; simpl;
    auto.
Qed.

Lemma keyword_prompts_stay_in_the_script_witness :
  App.handle_prompt App.lower_ascii opening
    (fun _ => ChatbotLogic.Reply "Hello") (Some "Any Advice?")
    App.loaded_session
  = App.handle_prompt App.lower_ascii opening
      (fun _ => ChatbotLogic.Failure "quota") (Some "Any Advice?")
      App.loaded_session
  /\ App.chatbot
       (App.handle_prompt App.lower_ascii opening
          (fun _ => ChatbotLogic.Reply "Hello") (Some "Any Advice?")
          App.loaded_session)
     = ChatbotLogic.Chatbot_init
  /\ App.messages
       (App.handle_prompt App.lower_ascii opening
          (fun _ => ChatbotLogic.Reply "Hello") (Some "Any Advice?")
          App.loaded_session)
     = [{| ChatbotLogic.role := "user";
           ChatbotLogic.content := "Any Advice?" |};
        {| ChatbotLogic.role := "assistant";
           ChatbotLogic.content :=
             App.recommendations_reply opening (commuter 3 PT 6 5)
               (Some alert_insights) |}].
Proof.
  apply (keyword_prompts_stay_in_the_script Q Exact App.lower_ascii opening
           (fun _ => ChatbotLogic.Reply "Hello")
           (fun _ => ChatbotLogic.Failure "quota")
           "Any Advice?" App.loaded_session).
  - discriminate.
  - reflexivity.
Defined.

(** X25. In every session the history of the chatbot is a subsequence of
    the messages shown: each exchange the service answered is among them, in
    order.  Both lists only grow: the messages and the history of a session
    are prefixes of those of any longer session. *)
Theorem history_within_the_messages (num : Type) (A : PyNum num)
    (lower : string -> string) (render : recommendation num -> string)
    (commuter_df : list (CommuterRecord num)) (s : random_state num)
    (l l' : list App.interaction) :
  let st := fst (App.session lower render commuter_df s l) in
  let st' := fst (App.session lower render commuter_df s (l ++ l')) in
  sublist (ChatbotLogic.conversation_history (App.chatbot st))
          (App.messages st)
  /\ (exists shown, App.messages st' = App.messages st ++ shown)
  /\ (exists kept,
         ChatbotLogic.conversation_history (App.chatbot st')
         = ChatbotLogic.conversation_history (App.chatbot st) ++ kept).
Proof.
  intros st st'. split.
  - destruct (reruns_messages lower render commuter_df l (App.initial, s))
      as (shown & kept & Hm & Hc & Hs).
    unfold st, App.session. rewrite Hm, Hc. exact Hs.
  - unfold st', st, App.session. rewrite fold_left_app.
    destruct (reruns_messages lower render commuter_df l'
                (fold_left (App.rerun lower render commuter_df) l
                           (App.initial, s)))
      as (shown & kept & Hm & Hc & _).
    split; [exists shown; exact Hm | exists kept; exact Hc].
Qed.
